(** * Mint Gene Co-Deployer: the multi-chain deployment script

    A shallow embedding of [scripts/deploy_multichain.py] and the
    properties of its deployment orchestrator: environment check,
    per-chain deployers, cross-chain synchronisation and report.

    A Python [str] is a Rocq string holding its UTF-8 encoding, which
    is what Rocq makes of the literals of this file; the text a
    subprocess printed is the [str] the script receives, already
    decoded.  The object [self] and the process' console are an
    explicit state, and everything the script obtains from outside
    (environment variables, subprocess results, the clock) is read
    from a [world]. *)

From Stdlib Require Import String Ascii List ZArith NArith QArith Qabs Bool Arith Lia.
Import ListNotations.
Local Close Scope Q_scope.
Local Open Scope nat_scope.
Local Open Scope list_scope.
Local Open Scope string_scope.

(** ** Python string methods *)

Module PyStr.

(** The newline character, written ['\n'] in the source. *)
Definition nl : string := String "010"%char EmptyString.

(** [s.startswith(p)] *)
Fixpoint startswith (p s : string) : bool :=
  match p, s with
  | EmptyString, _ => true
  | String _ _, EmptyString => false
  | String a p', String b s' => Ascii.eqb a b && startswith p' s'
  end.

(** [m in s] *)
Fixpoint contains (m s : string) : bool :=
  startswith m s ||
  match s with
  | EmptyString => false
  | String _ s' => contains m s'
  end.

(** [s[n:]], counted in bytes. *)
Fixpoint drop (n : nat) (s : string) : string :=
  match n, s with
  | O, _ => s
  | S _, EmptyString => EmptyString
  | S k, String _ s' => drop k s'
  end.

(** [s.split(sep)] for a non-empty separator (Python raises
    [ValueError] on an empty one; every call in the script passes a
    literal).  The scan goes left to right: [cur] is the piece being
    collected and [skip] counts the bytes of a separator just matched
    that are still to be passed over. *)
Fixpoint split_from (sep : string) (skip : nat) (cur s : string)
  : list string :=
  match s with
  | EmptyString => [cur]
  | String c s' =>
      match skip with
      | S k => split_from sep k cur s'
      | O =>
          if startswith sep s
          then cur :: split_from sep (String.length sep - 1) EmptyString s'
          else split_from sep 0 (cur ++ String c EmptyString) s'
      end
  end.

Definition split (sep s : string) : list string := split_from sep 0 EmptyString s.

(** ** Characters

    The methods below look at single characters, which take one to
    four bytes: U+00A0, the no-break space, is the two bytes 194 and
    160, and a byte above 127 on its own is no character. *)

Definition of_bytes (l : list N) : string :=
  fold_right (fun n s => String (ascii_of_N n) s) EmptyString l.

(** [chr(c)]: the encoding of the character with code point [c]. *)
Definition chr (c : N) : string :=
  (if c <? 128 then of_bytes [c]
   else if c <? 2048 then of_bytes [192 + c / 64; 128 + c mod 64]
   else if c <? 65536 then
     of_bytes [224 + c / 4096; 128 + (c / 64) mod 64; 128 + c mod 64]
   else
     of_bytes [240 + c / 262144; 128 + (c / 4096) mod 64;
               128 + (c / 64) mod 64; 128 + c mod 64])%N.

(** [c] is a character that takes the number of bytes it was read
    from: at least [lo], no surrogate, at most U+10FFFF. *)
Definition scalar (lo c : N) : bool :=
  ((lo <=? c) && (c <=? 1114111) && negb ((55296 <=? c) && (c <=? 57343)))%N.

(** The code points of a string, read left to right: [need] bytes of
    the character being read are still to come and [acc] holds the
    bits read of it.  [None]: the bytes are not the encoding of a
    [str]. *)
Fixpoint decode_from (need : nat) (lo acc : N) (s : string)
  : option (list N) :=
  match s with
  | EmptyString => match need with O => Some [] | S _ => None end
  | String b s' =>
      let n := N_of_ascii b in
      match need with
      | O =>
          if (n <? 128)%N then option_map (cons n) (decode_from 0 0 0 s')
          else if ((192 <=? n) && (n <? 224))%N
          then decode_from 1 128 (n - 192) s'
          else if ((224 <=? n) && (n <? 240))%N
          then decode_from 2 2048 (n - 224) s'
          else if ((240 <=? n) && (n <? 248))%N
          then decode_from 3 65536 (n - 240) s'
          else None
      | S k =>
          if ((128 <=? n) && (n <? 192))%N then
            let c := (acc * 64 + (n - 128))%N in
            match k with
            | O =>
                if scalar lo c
                then option_map (cons c) (decode_from 0 0 0 s')
                else None
            | S _ => decode_from k lo c s'
            end
          else None
      end
  end.

Definition code_points (s : string) : option (list N) := decode_from 0 0 0 s.

(** The bytes are the encoding of a [str]. *)
Definition well_encoded (s : string) : bool :=
  match code_points s with Some _ => true | None => false end.

(** The characters for which [str.isspace] holds: the ASCII blanks
    and separators, NEL, the no-break spaces and the Unicode spaces
    and line separators. *)
Definition whitespace : list N :=
  [9; 10; 11; 12; 13; 28; 29; 30; 31; 32; 133; 160; 5760;
   8192; 8193; 8194; 8195; 8196; 8197; 8198; 8199; 8200; 8201; 8202;
   8232; 8233; 8239; 8287; 12288]%N.

Definition isspace (c : N) : bool := existsb (N.eqb c) whitespace.

(** Their encodings. *)
Definition spaces : list string := Eval vm_compute in map chr whitespace.

(** The number of bytes of the whitespace character [s] starts with;
    0 when it starts with none. *)
Definition space_width (s : string) : nat :=
  match find (fun sp => startswith sp s) spaces with
  | Some sp => String.length sp
  | None => 0
  end.

(** [s.lstrip()]; [skip] counts the bytes of a whitespace character
    just met that are still to be passed over. *)
Fixpoint lstrip_from (skip : nat) (s : string) : string :=
  match s with
  | EmptyString => EmptyString
  | String _ s' =>
      match skip with
      | S k => lstrip_from k s'
      | O =>
          match space_width s with
          | O => s
          | S k => lstrip_from k s'
          end
      end
  end.

Definition lstrip (s : string) : string := lstrip_from 0 s.

(** Truthiness of a string: [if s:] *)
Definition truthy (s : string) : bool :=
  match s with EmptyString => false | _ => true end.

(** [s.rstrip()]: what is left of [s] before its last stretch of
    whitespace. *)
Fixpoint rstrip (s : string) : string :=
  match s with
  | EmptyString => EmptyString
  | String c s' => if truthy (lstrip s) then String c (rstrip s') else EmptyString
  end.

(** [s.strip()] *)
Definition strip (s : string) : string := rstrip (lstrip s).

Definition map_chars (f : ascii -> ascii) : string -> string :=
  fix go (s : string) : string :=
    match s with
    | EmptyString => EmptyString
    | String c s' => String (f c) (go s')
    end.

Definition upper_char (c : ascii) : ascii :=
  let n := nat_of_ascii c in
  if ((97 <=? n) && (n <=? 122))%nat then ascii_of_nat (n - 32) else c.

Definition lower_char (c : ascii) : ascii :=
  let n := nat_of_ascii c in
  if ((65 <=? n) && (n <=? 90))%nat then ascii_of_nat (n + 32) else c.

(** [s.upper()] and [s.lower()] on the letters of ASCII; characters
    outside ASCII are left as they are.  The script lowers a string
    only to compare it with ['true'], and no character outside ASCII
    has one of these letters as its lower case; it uppers the chain
    keys. *)
Definition upper : string -> string := map_chars upper_char.
Definition lower : string -> string := map_chars lower_char.

(** [sep.join(items)] *)
Definition join (sep : string) (items : list string) : string :=
  String.concat sep items.

(** [s * n] *)
Fixpoint times (s : string) (n : nat) : string :=
  match n with
  | O => EmptyString
  | S k => s ++ times s k
  end.

(** ** Numbers from strings *)

(** A Python [float].  Finite values are kept exact: the rounding to
    a binary fraction is not modelled, only the overflow to an
    infinity. *)
Inductive number :=
| Finite (q : Q)
| Infinity (negative : bool)
| NaN.

(** From this magnitude on a value rounds to an infinity:
    [2**1024 - 2**970], half a unit above the largest double. *)
Definition huge : Q := inject_Z (2 ^ 1024 - 2 ^ 970).

Definition clamp (q : Q) : number :=
  if Qle_bool huge (Qabs q) then Infinity (negb (Qle_bool 0 q)) else Finite q.

Definition negate (x : number) : number :=
  match x with
  | Finite q => Finite (Qopp q)
  | Infinity s => Infinity (negb s)
  | NaN => NaN
  end.

(** [x + y] on floats. *)
Definition add (x y : number) : number :=
  match x, y with
  | NaN, _ | _, NaN => NaN
  | Infinity s, Infinity s' => if Bool.eqb s s' then Infinity s else NaN
  | Infinity s, Finite _ | Finite _, Infinity s => Infinity s
  | Finite a, Finite b => clamp (Qplus a b)
  end.

(** The code points at which the digits 0 to 9 of a script start: the
    characters of category Nd, which [float] and [int] read as
    decimal digits. *)
Definition digit_zeros : list N :=
  [48; 1632; 1776; 1984; 2406; 2534; 2662; 2790; 2918; 3046; 3174; 3302;
   3430; 3558; 3664; 3792; 3872; 4160; 4240; 6112; 6160; 6470; 6608; 6784;
   6800; 6992; 7088; 7232; 7248; 42528; 43216; 43264; 43472; 43504; 43600;
   44016; 65296; 66720; 68912; 69734; 69872; 69942; 70096; 70384; 70736;
   70864; 71248; 71360; 71472; 71904; 72016; 72784; 73040; 73120; 92768;
   92864; 93008; 120782; 120792; 120802; 120812; 120822; 123200; 123632;
   125264; 130032]%N.

Definition decimal (c : N) : option N :=
  option_map (fun z => (c - z)%N)
    (find (fun z => ((z <=? c) && (c <? z + 10))%N) digit_zeros).

(** What [float] and [int] first make of their argument: ASCII stays,
    a whitespace character becomes a space, a decimal digit its ASCII
    digit, and any other character ends the text with ['?']. *)
Fixpoint to_ascii (cs : list N) : list N :=
  match cs with
  | [] => []
  | c :: r =>
      if (c <? 128)%N then c :: to_ascii r
      else if isspace c then 32%N :: to_ascii r
      else match decimal c with
           | Some d => (48 + d)%N :: to_ascii r
           | None => [63%N]
           end
  end.

(** The blanks skipped at both ends: tab to carriage return, and the
    space. *)
Definition blank (c : N) : bool := ((9 <=? c) && (c <=? 13) || (c =? 32))%N.

Fixpoint drop_blanks (l : list N) : list N :=
  match l with
  | c :: r => if blank c then drop_blanks r else l
  | [] => []
  end.

Definition trim (l : list N) : list N :=
  rev (drop_blanks (rev (drop_blanks l))).

Definition is_digit (c : N) : bool := ((48 <=? c) && (c <=? 57))%N.

(** Removes the underscores that group digits; [None] when an
    underscore does not stand between two digits.  [prev] is the
    character before. *)
Fixpoint ungroup (prev : N) (l : list N) : option (list N) :=
  match l with
  | [] => if (prev =? 95)%N then None else Some []
  | c :: r =>
      if (c =? 95)%N then
        if is_digit prev then ungroup c r else None
      else if (prev =? 95)%N && negb (is_digit c) then None
      else option_map (cons c) (ungroup c r)
  end.

(** An optional sign. *)
Definition signed (l : list N) : bool * list N :=
  match l with
  | c :: r =>
      if (c =? 45)%N then (true, r)
      else if (c =? 43)%N then (false, r)
      else (false, l)
  | [] => (false, [])
  end.

Fixpoint span_digits (l : list N) : list N * list N :=
  match l with
  | c :: r =>
      if is_digit c
      then let '(ds, rest) := span_digits r in (c :: ds, rest)
      else ([], l)
  | [] => ([], [])
  end.

Definition value (ds : list N) : Z :=
  fold_left (fun a d => (10 * a + Z.of_N (d - 48))%Z) ds 0%Z.

Definition codes (s : string) : list N :=
  map N_of_ascii (list_ascii_of_string s).

Definition lower_code (c : N) : N :=
  if ((65 <=? c) && (c <=? 90))%N then (c + 32)%N else c.

Definition same_codes (a b : list N) : bool :=
  (length a =? length b)%nat && forallb (fun p => N.eqb (fst p) (snd p)) (combine a b).

(** [inf], [infinity] and [nan], in any case. *)
Definition special (l : list N) : option number :=
  let word := map lower_code l in
  if same_codes word (codes "inf") || same_codes word (codes "infinity")
  then Some (Infinity false)
  else if same_codes word (codes "nan") then Some NaN
  else None.

(** The exponent part: nothing, or [e] or [E], an optional sign and
    digits. *)
Definition exponent (l : list N) : option Z :=
  match l with
  | [] => Some 0%Z
  | c :: r =>
      if ((c =? 101) || (c =? 69))%N then
        let '(neg, r') := signed r in
        match span_digits r' with
        | ((_ :: _) as ds, []) => Some (if neg then (- value ds)%Z else value ds)
        | _ => None
        end
      else None
  end.

(** [m * 10**e] *)
Definition scale (m e : Z) : Q :=
  if (0 <=? e)%Z then inject_Z (m * 10 ^ e)
  else Qmake m (Z.to_pos (10 ^ (- e))).

(** Digits with an optional point, at least one digit on either
    side of it, and an optional exponent. *)
Definition magnitude (l : list N) : option number :=
  let '(ip, r) := span_digits l in
  let '(fp, r') :=
    match r with
    | c :: t => if (c =? 46)%N then span_digits t else ([], r)
    | [] => ([], r)
    end in
  match (ip ++ fp)%list with
  | [] => None
  | m =>
      option_map
        (fun e => clamp (scale (value m) (e - Z.of_nat (length fp))))
        (exponent r')
  end.

(** The text [float] and [int] parse: blanks trimmed, digit groups
    joined. *)
Definition numeral (s : string) : option (list N) :=
  match code_points s with
  | Some cs => ungroup 0 (trim (to_ascii cs))
  | None => None
  end.

(** [float(s)] on a string; [None] stands for [ValueError]. *)
Definition float (s : string) : option number :=
  match numeral s with
  | Some l =>
      let '(neg, body) := signed l in
      option_map (if neg then negate else fun x => x)
        (match special body with
         | Some x => Some x
         | None => magnitude body
         end)
  | None => None
  end.

(** The most digits [int] converts (the interpreter's default for
    [sys.set_int_max_str_digits]). *)
Definition int_max_str_digits : nat := 4300.

(** [int(s)] on a string; [None] stands for [ValueError]. *)
Definition int (s : string) : option Z :=
  match numeral s with
  | Some l =>
      let '(neg, body) := signed l in
      match body with
      | [] => None
      | _ :: _ =>
          if forallb is_digit body && (length body <=? int_max_str_digits)%nat
          then Some (if neg then (- value body)%Z else value body)
          else None
      end
  | None => None
  end.

End PyStr.

(** ** Data model *)

(** [@dataclass class ChainConfig] *)
Record ChainConfig := {
  name : string;
  rpc_url : string;
  chain_id : Z;
  native_token : string;
  relayer_type : string
}.

(** [@dataclass class DeploymentResult] *)
Record DeploymentResult := {
  chain : string;
  contract_address : string;
  program_id : string;
  tx_hash : string;
  gas_used : string;
  relayer_fee : string;
  timestamp : Z
}.

(** The value of the key ['sacred_state'] of [sync_data]. *)
Record SacredState := {
  matrix_level : Z;
  earnings_pool : Z;
  allowlist : list string
}.

(** The dictionary [sync_data] built by [sync_cross_chain]; its key
    ['timestamp'] is the field [sync_timestamp]. *)
Record SyncData := {
  source_chain : string;
  target_chain : string;
  source_address : string;
  target_address : string;
  sacred_state : SacredState;
  sync_timestamp : Z
}.

(** ** Exceptions, console and the outside world *)

Inductive exn :=
| FileNotFoundError (cmd : list string)
| CalledProcessError (cmd : list string) (returncode : Z)
| OtherException (msg : string)
| ValueError (arg : string)
| KeyError (key : string).

(** A printed line is the list of the pieces of its f-string.  Text
    built from strings alone is one [Str]; a value rendered by a
    formatting primitive is recorded as that value. *)
Inductive frag :=
| Str (s : string)
| Int (n : Z)
| Exc (e : exn)                                (* [{e}] *)
| JoinSet (sep : string) (items : list string) (* [sep.join(set(items))] *)
| LocalTime (t : Z)      (* [time.strftime(..., time.localtime(t))] *)
| Json (d : SyncData).                         (* [json.dumps(d, indent=2)] *)

Inductive event :=
| Print (text : list frag)
| Spawn (cmd : list string).

(** What [subprocess.run] meets: the executable is missing, the call
    raises something else, or the process runs to an exit status;
    [out] and [err] are then [result.stdout] and [result.stderr], the
    text of the process' output. *)
Inductive outcome :=
| NotFound
| Failed (msg : string)
| Exited (returncode : Z) (out err : string).

Record CompletedProcess := {
  returncode : Z;
  stdout : string;
  stderr : string
}.

Record world := {
  getenv : string -> option string;
  run_command : list string -> outcome;
  (** the [n]-th reading of [int(time.time())] *)
  time_time : nat -> Z
}.

(** [os.getenv(key, default)] *)
Definition getenv_default (w : world) (key default : string) : string :=
  match getenv w key with
  | Some v => v
  | None => default
  end.

(** The object [self], the console and the number of clock readings
    made so far. *)
Record state := {
  chains : list (string * ChainConfig);
  deployments : list DeploymentResult;
  console : list event;
  clock_reads : nat
}.

(** ** Computations that may raise *)

Inductive result (A : Type) :=
| Ok (a : A)
| Raise (e : exn).
Arguments Ok {A} a.
Arguments Raise {A} e.

Definition M (A : Type) : Type := state -> result A * state.

Definition ret {A} (a : A) : M A := fun s => (Ok a, s).

Definition raise {A} (e : exn) : M A := fun s => (Raise e, s).

Definition bind {A B} (c : M A) (k : A -> M B) : M B :=
  fun s =>
    match c s with
    | (Ok a, s') => k a s'
    | (Raise e, s') => (Raise e, s')
    end.

Notation "x <- c ;; k" := (bind c (fun x => k))
  (at level 61, c at next level, right associativity).
Notation "c ;; k" := (bind c (fun _ => k))
  (at level 61, right associativity).

(** [try: body except ...: handler]; a handler of [None] lets the
    exception through. *)
Definition try_except {A} (body : M A) (handler : exn -> option (M A))
  : M A :=
  fun s =>
    match body s with
    | (Raise e, s') =>
        match handler e with
        | Some h => h s'
        | None => (Raise e, s')
        end
    | r => r
    end.

Definition emit (e : event) : M unit :=
  fun s => (Ok tt, {| chains := chains s;
                      deployments := deployments s;
                      console := (console s ++ [e])%list;
                      clock_reads := clock_reads s |}).

Definition printf (text : list frag) : M unit := emit (Print text).

Definition print (text : string) : M unit := printf [Str text].

(** [self.deployments.append(d)] *)
Definition append_deployment (d : DeploymentResult) : M unit :=
  fun s => (Ok tt, {| chains := chains s;
                      deployments := (deployments s ++ [d])%list;
                      console := console s;
                      clock_reads := clock_reads s |}).

Definition get_deployments : M (list DeploymentResult) :=
  fun s => (Ok (deployments s), s).

Fixpoint assoc {A} (k : string) (l : list (string * A)) : option A :=
  match l with
  | [] => None
  | (k', v) :: l' => if String.eqb k k' then Some v else assoc k l'
  end.

(** [self.chains[key]] *)
Definition chain_config (key : string) : M ChainConfig :=
  fun s =>
    match assoc key (chains s) with
    | Some c => (Ok c, s)
    | None => (Raise (KeyError key), s)
    end.

Fixpoint mapM {A B} (f : A -> M B) (l : list A) : M (list B) :=
  match l with
  | [] => ret []
  | a :: l' => b <- f a ;; bs <- mapM f l' ;; ret (b :: bs)
  end.

Section Script.

Variable w : world.

(** [int(time.time())] *)
Definition now : M Z :=
  fun s => (Ok (time_time w (clock_reads s)),
            {| chains := chains s;
               deployments := deployments s;
               console := console s;
               clock_reads := S (clock_reads s) |}).

(** [subprocess.run(cmd, check=check)] *)
Definition subprocess_run (cmd : list string) (check : bool)
  : M CompletedProcess :=
  emit (Spawn cmd) ;;
  match run_command w cmd with
  | NotFound => raise (FileNotFoundError cmd)
  | Failed msg => raise (OtherException msg)
  | Exited rc out err =>
      if check && negb (rc =? 0)%Z
      then raise (CalledProcessError cmd rc)
      else ret {| returncode := rc; stdout := out; stderr := err |}
  end.

(** *** Module-level configuration *)

Definition SOLANA_RPC : string :=
  getenv_default w "HELIUS_RPC_MAINNET"
    "https://mainnet.helius-rpc.com/?api-key=16b9324a-5b8c-47b9-9b02-6efa868958e5".
Definition SKALE_RPC : string :=
  getenv_default w "SKALE_RPC"
    "https://mainnet.skalenodes.com/v1/elated-tan-skat".
Definition PRIVATE_KEY : string :=
  getenv_default w "PRIVATE_KEY" "your_private_key_here".
Definition ENABLE_REBATES : bool :=
  String.eqb (PyStr.lower (getenv_default w "ENABLE_REBATES" "true")) "true".

(** *** [MultiChainDeployer.__init__] *)

Definition configured_chains (skale_chain_id : Z)
  : list (string * ChainConfig) :=
  [ ("solana", {| name := "Solana";
                  rpc_url := SOLANA_RPC;
                  chain_id := 101;
                  native_token := "SOL";
                  relayer_type := "octane" |});
    ("skale", {| name := "SKALE";
                 rpc_url := SKALE_RPC;
                 chain_id := skale_chain_id;
                 native_token := "sFUEL";
                 relayer_type := "biconomy" |}) ].

Definition init : M unit :=
  let id := getenv_default w "SKALE_CHAIN_ID" "2046399126" in
  match PyStr.int id with
  | None => raise (ValueError id)
  | Some skale_chain_id =>
      (fun s => (Ok tt, {| chains := configured_chains skale_chain_id;
                           deployments := [];
                           console := console s;
                           clock_reads := clock_reads s |})) ;;
      print "🚀 Mint Gene Co-Deployer - Multi-Chain Synchronization" ;;
      ks <- (fun s => (Ok (map fst (chains s)), s)) ;;
      print ("📡 Configured chains: " ++ PyStr.join ", " ks)
  end.

(** *** [check_environment] *)

(** One [try: subprocess.run(cmd, capture_output=True, text=True);
    print(found) except FileNotFoundError: print(missing)] block;
    the value tells whether the tool was found. *)
Definition probe (cmd : list string) (found missing : string) : M bool :=
  try_except
    (r <- subprocess_run cmd false ;;
     print (found ++ PyStr.strip (stdout r)) ;;
     ret true)
    (fun e =>
       match e with
       | FileNotFoundError _ => Some (print missing ;; ret false)
       | _ => None
       end).

Definition check_environment : M bool :=
  print (PyStr.nl ++ "🔍 Checking deployment environment...") ;;
  node <- probe ["node"; "--version"]
            "✅ Node.js: " "❌ Node.js not found" ;;
  if negb node then ret false else
  python <- probe ["python3"; "--version"]
              "✅ Python: " "❌ Python3 not found" ;;
  if negb python then ret false else
  probe ["anchor"; "--version"] "✅ Anchor CLI: "
    "❌ Anchor CLI not found - install with: npm i -g @project-serum/anchor-cli" ;;
  probe ["npx"; "hardhat"; "--version"] "✅ Hardhat: "
    "❌ Hardhat not found - install with: npm install -g hardhat" ;;
  if String.eqb PRIVATE_KEY "your_private_key_here"
  then print "⚠️  Private key not configured in .env" ;; ret false
  else print "✅ Private key configured" ;; ret true.

(** *** The deployers *)

(** The loop over the lines of the deployment output:
    [for line in lines: if marker in line:
       value = line.split(marker)[1].strip(); break].
    The index [1] exists whenever the marker occurs in the line. *)
Fixpoint extract (marker : string) (lines : list string) : option string :=
  match lines with
  | [] => None
  | line :: rest =>
      if PyStr.contains marker line
      then Some (PyStr.strip (nth 1 (PyStr.split marker line) EmptyString))
      else extract marker rest
  end.

(** The handlers shared by both deployers:
    [except subprocess.CalledProcessError as e] and
    [except Exception as e], both falling through to [return None]. *)
Definition deploy_handlers (label : string) (e : exn)
  : option (M (option DeploymentResult)) :=
  match e with
  | CalledProcessError _ _ =>
      Some (printf [Str ("❌ " ++ label ++ " deployment error: "); Exc e] ;;
            ret None)
  | _ =>
      Some (printf [Str "❌ Unexpected error: "; Exc e] ;; ret None)
  end.

Definition solana_deploy_cmd : list string :=
  ["node"; "scripts/solana_zero_cost_deploy.js";
   "target/deploy/mint_gene.so";
   "target/deploy/mint_gene-keypair.json";
   "mainnet"].

Definition deploy_solana : M (option DeploymentResult) :=
  print (PyStr.nl ++ "🌐 Deploying to Solana...") ;;
  try_except
    (print "🔨 Building Anchor program..." ;;
     subprocess_run ["anchor"; "build"] true ;;
     print "📦 Running zero-cost deployment..." ;;
     result <- subprocess_run solana_deploy_cmd false ;;
     if (returncode result =? 0)%Z then
       let lines := PyStr.split PyStr.nl (stdout result) in
       match extract "Program ID:" lines with
       | Some (String _ _ as program_id) =>
           t <- now ;;
           let deployment :=
             {| chain := "solana";
                contract_address := program_id;
                program_id := program_id;
                tx_hash := "relayer_tx_hash";
                gas_used := "0";
                relayer_fee := "0.001";
                timestamp := t |} in
           append_deployment deployment ;;
           print ("✅ Solana deployment successful: " ++ program_id) ;;
           ret (Some deployment)
       | _ =>
           print "❌ Could not extract program ID from deployment output" ;;
           ret None
       end
     else
       print ("❌ Solana deployment failed: " ++ stderr result) ;;
       ret None)
    (deploy_handlers "Solana").

Definition skale_deploy_cmd : list string :=
  ["node"; "scripts/skale_mainnet_zero_cost_deploy.js"; "MintGene"].

Definition deploy_skale : M (option DeploymentResult) :=
  print (PyStr.nl ++ "🌐 Deploying to SKALE...") ;;
  try_except
    (print "📦 Running zero-cost deployment..." ;;
     result <- subprocess_run skale_deploy_cmd false ;;
     if (returncode result =? 0)%Z then
       let lines := PyStr.split PyStr.nl (stdout result) in
       match extract "Contract Address:" lines with
       | Some (String _ _ as contract_address) =>
           t <- now ;;
           let deployment :=
             {| chain := "skale";
                contract_address := contract_address;
                program_id := contract_address;
                tx_hash := "relayer_tx_hash";
                gas_used := "0";
                relayer_fee := "0.01";
                timestamp := t |} in
           append_deployment deployment ;;
           print ("✅ SKALE deployment successful: " ++ contract_address) ;;
           ret (Some deployment)
       | _ =>
           print "❌ Could not extract contract address from deployment output" ;;
           ret None
       end
     else
       print ("❌ SKALE deployment failed: " ++ stderr result) ;;
       ret None)
    (deploy_handlers "SKALE").

(** *** [sync_cross_chain] *)

Definition make_sync_data (solana_deployment skale_deployment
                            : DeploymentResult) (t : Z) : SyncData :=
  {| source_chain := "solana";
     target_chain := "skale";
     source_address := contract_address solana_deployment;
     target_address := contract_address skale_deployment;
     sacred_state :=
       {| matrix_level := 1;
          earnings_pool := 0;
          allowlist := [contract_address solana_deployment;
                        contract_address skale_deployment] |};
     sync_timestamp := t |}.

(** The body of the [try] block. *)
Definition sync_body (solana_deployment skale_deployment
                       : DeploymentResult) : M bool :=
  print "🌉 Establishing Wormhole connection..." ;;
  print ("📤 Bridging from Solana: "
         ++ contract_address solana_deployment) ;;
  print ("📥 Bridging to SKALE: " ++ contract_address skale_deployment) ;;
  t <- now ;;
  let sync_data := make_sync_data solana_deployment skale_deployment t in
  print "📊 Sacred state synchronized:" ;;
  printf [Json sync_data] ;;
  print "✅ Cross-chain synchronization complete" ;;
  ret true.

Definition sync_cross_chain (solana_deployment skale_deployment
                              : DeploymentResult) : M bool :=
  print (PyStr.nl ++ "🔄 Synchronizing cross-chain state...") ;;
  try_except
    (sync_body solana_deployment skale_deployment)
    (fun e =>
       Some (printf [Str "❌ Cross-chain sync failed: "; Exc e] ;;
             ret false)).

(** *** [generate_report] *)

(** [sum(float(d.relayer_fee) for d in deployments)], from the
    accumulator [acc]; [float] raises [ValueError] on a string that
    is no number. *)
Fixpoint sum_fees (acc : PyStr.number) (ds : list DeploymentResult)
  : result PyStr.number :=
  match ds with
  | [] => Ok acc
  | d :: ds' =>
      match PyStr.float (relayer_fee d) with
      | Some x => sum_fees (PyStr.add acc x) ds'
      | None => Raise (ValueError (relayer_fee d))
      end
  end.

(** [sum] starts from 0. *)
Definition total_savings (ds : list DeploymentResult) : result PyStr.number :=
  sum_fees (PyStr.Finite 0) ds.

Definition lift {A} (r : result A) : M A := fun s => (r, s).

(** The loop [for i, deployment in enumerate(self.deployments, 1)]. *)
Fixpoint report_details (i : Z) (ds : list DeploymentResult) : M unit :=
  match ds with
  | [] => ret tt
  | deployment :: ds' =>
      printf [Str PyStr.nl; Int i;
              Str (". " ++ PyStr.upper (chain deployment))] ;;
      print ("   Address: " ++ contract_address deployment) ;;
      c <- chain_config (chain deployment) ;;
      print ("   Gas Used: " ++ gas_used deployment ++ " "
             ++ native_token c) ;;
      c <- chain_config (chain deployment) ;;
      print ("   Relayer Fee: " ++ relayer_fee deployment ++ " "
             ++ native_token c) ;;
      printf [Str "   Timestamp: "; LocalTime (timestamp deployment)] ;;
      report_details (i + 1)%Z ds'
  end.

(** Line 263 of the source runs two statements together,
    [print(".2f"] and the [print] of the [Relayer Type] line; they
    are read as the two calls [print(".2f")] and
    [print(f"Relayer Type: ...")].  [total_savings] is computed, so
    that a fee that is no number raises, and then not used: no line
    of the report shows it. *)
Definition generate_report : M unit :=
  print (PyStr.nl ++ "📋 Deployment Report") ;;
  print (PyStr.times "=" 50) ;;
  ds <- get_deployments ;;
  let total_deployments := length ds in
  lift (total_savings ds) ;;
  printf [Str "Total Deployments: "; Int (Z.of_nat total_deployments)] ;;
  printf [Str "Chains Deployed: "; JoinSet ", " (map chain ds)] ;;
  print ".2f" ;;
  relayers <- mapM (fun d => c <- chain_config (chain d) ;;
                             ret (relayer_type c)) ds ;;
  printf [Str "Relayer Type: "; JoinSet ", " relayers] ;;
  print ("Rebate System: "
         ++ if ENABLE_REBATES then "ENABLED" else "DISABLED") ;;
  (if ENABLE_REBATES
   then print "Helius API: Configured for automatic SOL rebates"
   else ret tt) ;;
  print (PyStr.nl ++ "📊 Deployment Details:") ;;
  report_details 1 ds ;;
  if (2 <=? total_deployments)%nat
  then print (PyStr.nl ++ "🔗 Cross-Chain Status: ✅ Synchronized")
  else print (PyStr.nl
              ++ "🔗 Cross-Chain Status: ⚠️ Single chain deployment only").

(** *** [run_full_deployment] *)

(** The closing loop over [self.deployments]. *)
Fixpoint explorer_links (ds : list DeploymentResult) : M unit :=
  match ds with
  | [] => ret tt
  | deployment :: ds' =>
      (if String.eqb (chain deployment) "solana" then
         print ("   Solana: https://solscan.io/account/"
                ++ contract_address deployment)
       else if String.eqb (chain deployment) "skale" then
         print ("   SKALE: https://elated-tan-skat.explorer.mainnet.skalenodes.com/address/"
                ++ contract_address deployment)
       else ret tt) ;;
      explorer_links ds'
  end.

(** What follows the branch on the deployment results. *)
Definition report_and_links : M unit :=
  generate_report ;;
  print (PyStr.nl
         ++ "🎊 Mint Gene Co-Deployer - Multi-Chain Deployment Complete!") ;;
  print "🔗 View deployments on respective explorers:" ;;
  ds <- get_deployments ;;
  explorer_links ds.

(** The branch on the two results of the deployers and what follows
    it; [sync] is the method called for the bridge step,
    [self.sync_cross_chain]. *)
Definition settle (sync : DeploymentResult -> DeploymentResult -> M bool)
  (solana_result skale_result : option DeploymentResult) : M unit :=
  match solana_result, skale_result with
  | Some solana_result, Some skale_result =>
      sync solana_result skale_result ;;
      report_and_links
  | Some _, None =>
      print "⚠️ Only Solana deployment successful. SKALE deployment failed." ;;
      report_and_links
  | None, Some _ =>
      print "⚠️ Only SKALE deployment successful. Solana deployment failed." ;;
      report_and_links
  | None, None =>
      print "❌ Both deployments failed."
  end.

(** [run_full_deployment], for a given bridge method. *)
Definition run_full_deployment_with
  (sync : DeploymentResult -> DeploymentResult -> M bool) : M unit :=
  print "🎯 Starting Mint Gene Co-Deployer Multi-Chain Deployment" ;;
  ok <- check_environment ;;
  if negb ok then
    print "❌ Environment check failed. Please fix issues and try again."
  else
    solana_result <- deploy_solana ;;
    skale_result <- deploy_skale ;;
    settle sync solana_result skale_result.

Definition run_full_deployment : M unit :=
  run_full_deployment_with sync_cross_chain.

(** The state of the process before [main]. *)
Definition blank : state :=
  {| chains := []; deployments := []; console := []; clock_reads := 0 |}.

(** [main]: construct the deployer, then run. *)
Definition main : M unit :=
  init ;;
  run_full_deployment.

End Script.

(** * Vocabulary of the properties *)

(** ** Occurrences of a separator *)

Module PyStrDefs.
Import PyStr.

(** A separator has a border when one of its proper suffixes is also
    a prefix: only then can two of its occurrences overlap. *)
Definition has_border (sep : string) : bool :=
  existsb (fun k => startswith (drop k sep) sep)
          (seq 1 (String.length sep - 1)).

(** No occurrence of [sep] in [a ++ rest] starts inside [a]. *)
Fixpoint clear_before (sep a rest : string) : bool :=
  match a with
  | EmptyString => true
  | String _ a' => negb (startswith sep (a ++ rest)) && clear_before sep a' rest
  end.

End PyStrDefs.

(** ** States *)

(** [s] after the events [tr] were written to the console. *)
Definition logged (tr : list event) (s : state) : state :=
  {| chains := chains s; deployments := deployments s;
     console := console s ++ tr; clock_reads := clock_reads s |}.

(** [s] after one reading of the clock and the appending of [d]. *)
Definition recorded (d : DeploymentResult) (s : state) : state :=
  {| chains := chains s; deployments := deployments s ++ [d];
     console := console s; clock_reads := S (clock_reads s) |}.

(** [s] after the events [tr] and [n] readings of the clock. *)
Definition advanced (tr : list event) (n : nat) (s : state) : state :=
  {| chains := chains s;
     deployments := deployments s;
     console := console s ++ tr;
     clock_reads := n + clock_reads s |}.

(** A computation that leaves [self] alone: it may only read the
    clock and write to the console, and every event it writes
    satisfies [P]. *)
Definition emits (P : event -> Prop) {A} (c : M A) : Prop :=
  forall s, exists tr n, snd (c s) = advanced tr n s /\ Forall P tr.

Definition bystander {A} (c : M A) : Prop := emits (fun _ => True) c.

(** What was written to the console between two states. *)
Definition emitted (s s' : state) : list event :=
  skipn (length (console s)) (console s').

(** ** Lines of the console *)

Definition start_banner : string :=
  "🎯 Starting Mint Gene Co-Deployer Multi-Chain Deployment".

Definition halt_message : string :=
  "❌ Environment check failed. Please fix issues and try again.".

Definition sync_banner : string :=
  PyStr.nl ++ "🔄 Synchronizing cross-chain state...".

Definition report_banner : string :=
  PyStr.nl ++ "📋 Deployment Report".

Definition synchronized_status : string :=
  PyStr.nl ++ "🔗 Cross-Chain Status: ✅ Synchronized".

Definition single_chain_status : string :=
  PyStr.nl ++ "🔗 Cross-Chain Status: ⚠️ Single chain deployment only".

Definition only_solana_message : string :=
  "⚠️ Only Solana deployment successful. SKALE deployment failed.".

Definition only_skale_message : string :=
  "⚠️ Only SKALE deployment successful. Solana deployment failed.".

Definition all_failed_message : string :=
  "❌ Both deployments failed.".

(** The event is the line [msg]. *)
Definition is_print (msg : string) (e : event) : bool :=
  match e with
  | Print [Str s] => String.eqb s msg
  | _ => false
  end.

(** The event is the heading of one deployment in the report's
    details, [f"\n{i}. {deployment.chain.upper()}"]. *)
Definition is_entry (e : event) : bool :=
  match e with
  | Print [Str _; Int _; Str _] => true
  | _ => false
  end.

(** The lines by which the bridge step and the report are recognised
    on a console. *)
Definition landmark (e : event) : bool :=
  is_print sync_banner e || is_print report_banner e || is_entry e.

Definition quiet (tr : list event) : bool :=
  forallb (fun e => negb (landmark e)) tr.

Definition count (p : event -> bool) (tr : list event) : nat :=
  length (filter p tr).

(** Every event of [l] occurs in [tr]. *)
Definition shown (l tr : list event) : Prop := Forall (fun e => In e tr) l.

(** The lines of the report's details for the [i]-th deployment [d],
    on a chain whose native token is [token]. *)
Definition entry_lines (i : Z) (d : DeploymentResult) (token : string)
  : list event :=
  [ Print [Str PyStr.nl; Int i; Str (". " ++ PyStr.upper (chain d))];
    Print [Str ("   Address: " ++ contract_address d)];
    Print [Str ("   Gas Used: " ++ gas_used d ++ " " ++ token)];
    Print [Str ("   Relayer Fee: " ++ relayer_fee d ++ " " ++ token)];
    Print [Str "   Timestamp: "; LocalTime (timestamp d)] ].

(** The [sync_data] documents on a console. *)
Fixpoint printed_records (tr : list event) : list SyncData :=
  match tr with
  | [] => []
  | Print [Json d] :: tr' => d :: printed_records tr'
  | _ :: tr' => printed_records tr'
  end.

(** ** The environment *)

(** The commands [check_environment] probes. *)
Definition version_cmds : list (list string) :=
  [["node"; "--version"]; ["python3"; "--version"];
   ["anchor"; "--version"]; ["npx"; "hardhat"; "--version"]].

(** The executable of [cmd] exists. *)
Definition found (w : world) (cmd : list string) : bool :=
  match run_command w cmd with NotFound => false | _ => true end.

(** [subprocess.run(cmd)] raises nothing but [FileNotFoundError]. *)
Definition responds (w : world) (cmd : list string) : bool :=
  match run_command w cmd with Failed _ => false | _ => true end.

(** The credential is present: [PRIVATE_KEY] is not the placeholder
    that stands for an unset variable. *)
Definition key_configured (w : world) : bool :=
  negb (String.eqb (PRIVATE_KEY w) "your_private_key_here").

Fixpoint same_cmd (a b : list string) : bool :=
  match a, b with
  | [], [] => true
  | x :: a', y :: b' => String.eqb x y && same_cmd a' b'
  | _, _ => false
  end.

(** The event is no subprocess call other than a version probe. *)
Definition is_probe (e : event) : bool :=
  match e with
  | Spawn cmd => existsb (same_cmd cmd) version_cmds
  | Print _ => true
  end.

(** ** The two deployers, side by side *)

Inductive target := Solana | Skale.

Definition deploy (w : world) (c : target) : M (option DeploymentResult) :=
  match c with Solana => deploy_solana w | Skale => deploy_skale w end.

Definition deploy_cmd (c : target) : list string :=
  match c with Solana => solana_deploy_cmd | Skale => skale_deploy_cmd end.

Definition marker (c : target) : string :=
  match c with Solana => "Program ID:" | Skale => "Contract Address:" end.

(** The build step that precedes the deploy invocation succeeded
    (only the Solana deployer has one). *)
Definition built (w : world) (c : target) : bool :=
  match c with
  | Solana =>
      match run_command w ["anchor"; "build"] with
      | Exited 0 _ _ => true
      | _ => false
      end
  | Skale => true
  end.

Definition chain_key (c : target) : string :=
  match c with Solana => "solana" | Skale => "skale" end.

Definition fee (c : target) : string :=
  match c with Solana => "0.001" | Skale => "0.01" end.

Definition token (c : target) : string :=
  match c with Solana => "SOL" | Skale => "sFUEL" end.

(** The [DeploymentResult] a deployer builds for the identifier it
    read and the time it read. *)
Definition deployed (c : target) (address : string) (t : Z)
  : DeploymentResult :=
  {| chain := chain_key c;
     contract_address := address;
     program_id := address;
     tx_hash := "relayer_tx_hash";
     gas_used := "0";
     relayer_fee := fee c;
     timestamp := t |}.

Definition unparseable_msg (c : target) : string :=
  match c with
  | Solana => "❌ Could not extract program ID from deployment output"
  | Skale => "❌ Could not extract contract address from deployment output"
  end.

Definition failure_prefix (c : target) : string :=
  match c with
  | Solana => "❌ Solana deployment failed: "
  | Skale => "❌ SKALE deployment failed: "
  end.

Definition only_message (c : target) : string :=
  match c with
  | Solana => only_solana_message
  | Skale => only_skale_message
  end.

(** What a deployer may return: nothing, or the result it built. *)
Definition outcome_of (c : target) (r : option DeploymentResult) : Prop :=
  r = None \/ exists v t, v <> EmptyString /\ r = Some (deployed c v t).

(** The results the two deployers returned, in ledger order. *)
Definition successes (r1 r2 : option DeploymentResult)
  : list DeploymentResult :=
  (match r1 with Some d => [d] | None => [] end ++
   match r2 with Some d => [d] | None => [] end)%list.

(** ** The run *)

(** The states between the statements of [run_full_deployment]: at
    entry, after the opening line, after the environment check, and,
    when the check passed, after each deployer; then the state in
    which the run ends. *)
Definition checkpoints (w : world) (s : state) : list state :=
  let s1 := snd (print start_banner s) in
  let '(ok, s2) := check_environment w s1 in
  s :: s1 :: s2 ::
  match ok with
  | Ok true =>
      let s3 := snd (deploy_solana w s2) in
      let s4 := snd (deploy_skale w s3) in
      [s3; s4; snd (run_full_deployment w s)]
  | _ => [snd (run_full_deployment w s)]
  end.

(** ** Fees by token *)



(** ** Scenarios *)

(** A world with the given [PRIVATE_KEY], in which the executables of
    the commands [missing] do not exist, the two deployment scripts end
    as given and every other command exits with status 0. *)
Definition scenario (key : option string) (missing : list (list string))
  (solana skale : outcome) : world :=
  {| getenv := fun k => if String.eqb k "PRIVATE_KEY" then key else None;
     run_command := fun cmd =>
       if existsb (same_cmd cmd) missing then NotFound
       else if same_cmd cmd solana_deploy_cmd then solana
       else if same_cmd cmd skale_deploy_cmd then skale
       else Exited 0 "v1.0.0" EmptyString;
     time_time := fun n => (1700000000 + Z.of_nat n)%Z |}.

Definition solana_ok : outcome :=
  Exited 0 ("Deploying..." ++ PyStr.nl ++ "Program ID: ABC123" ++ PyStr.nl)
    EmptyString.

Definition skale_ok : outcome :=
  Exited 0 ("Contract Address: 0xDEF456" ++ PyStr.nl) EmptyString.

Definition a_key : string :=
  "5Kb8kLf9zgWQnogidDA76MzPL6TsZZY36hWXMssSzNydYXYB9KF".

(** Node.js is missing; the key is set and everything else is in place. *)
Definition no_node : world :=
  scenario (Some a_key) [["node"; "--version"]] solana_ok skale_ok.

(** Everything is in place and both deployment scripts print their marker. *)
Definition both_succeed : world :=
  scenario (Some a_key) [] solana_ok skale_ok.

(** The SKALE script exits with status 0 without a marker line. *)
Definition skale_silent : world :=
  scenario (Some a_key) [] solana_ok
    (Exited 0 ("MintGene deployed" ++ PyStr.nl) EmptyString).

(** The SKALE script exits with status 1. *)
Definition skale_crashes : world :=
  scenario (Some a_key) [] solana_ok
    (Exited 1 EmptyString "Error: insufficient sFUEL").

(** The deployer as [main] constructs it. *)
Definition fresh (w : world) : state := snd (init w blank).

(** The ledger and the chains at the end of [main] in a world. *)
Definition final_ledger (w : world) : list DeploymentResult :=
  deployments (snd (main w blank)).


(** ** Further vocabulary *)

(** The commands passed to [subprocess.run], in order. *)
Fixpoint spawned (tr : list event) : list (list string) :=
  match tr with
  | [] => []
  | Spawn cmd :: tr' => cmd :: spawned tr'
  | Print _ :: tr' => spawned tr'
  end.

(** The exception [subprocess.run(cmd)] raises without [check], if any. *)
Definition raised_by (w : world) (cmd : list string) : option exn :=
  match run_command w cmd with
  | NotFound => Some (FileNotFoundError cmd)
  | Failed msg => Some (OtherException msg)
  | Exited _ _ _ => None
  end.

(** The Solana script ends its marker line with a no-break space. *)
Definition solana_padded : world :=
  scenario (Some a_key) []
    (Exited 0 ("Program ID: ABC123" ++ PyStr.chr 160 ++ PyStr.nl) EmptyString)
    skale_ok.

(** The SKALE script prints a marker followed by whitespace only: two
    spaces and a no-break space. *)
Definition skale_blank : world :=
  scenario (Some a_key) [] solana_ok
    (Exited 0 ("Contract Address:  " ++ PyStr.chr 160 ++ PyStr.nl) EmptyString).

(** The SKALE script prints its marker twice on one line, an
    ideographic space (U+3000) before the second. *)
Definition skale_twice : world :=
  scenario (Some a_key) [] solana_ok
    (Exited 0 ("Contract Address: 0xAAA" ++ PyStr.chr 12288
               ++ "Contract Address: 0xBBB") EmptyString).

(** The Anchor build exits with status 2. *)
Definition build_fails : world :=
  {| getenv := getenv both_succeed;
     run_command := fun cmd =>
       if same_cmd cmd ["anchor"; "build"] then Exited 2 EmptyString EmptyString
       else run_command both_succeed cmd;
     time_time := time_time both_succeed |}.

(** The executable that runs the SKALE script does not exist. *)
Definition skale_missing : world :=
  scenario (Some a_key) [] solana_ok NotFound.

(** Running [node] is refused by the system; everything else is in place. *)
Definition node_denied : world :=
  {| getenv := getenv both_succeed;
     run_command := fun cmd =>
       if same_cmd cmd ["node"; "--version"]
       then Failed "[Errno 13] Permission denied: 'node'"
       else run_command both_succeed cmd;
     time_time := time_time both_succeed |}.

(** Python3 is missing; the key is set and everything else is in place. *)
Definition no_python : world :=
  scenario (Some a_key) [["python3"; "--version"]] solana_ok skale_ok.

(** The first command a deployer runs. *)
Definition entry_cmd (c : target) : list string :=
  match c with Solana => ["anchor"; "build"] | Skale => skale_deploy_cmd end.

(** A result as the deployers build it: an identifier that is not
    empty, recorded as contract address and as program id, the
    placeholder transaction hash, no gas, and the chain's name and
    fixed fee. *)
Definition well_formed (d : DeploymentResult) : Prop :=
  contract_address d <> EmptyString /\
  program_id d = contract_address d /\
  tx_hash d = "relayer_tx_hash" /\
  gas_used d = "0" /\
  (chain d = "solana" /\ relayer_fee d = "0.001" \/
   chain d = "skale" /\ relayer_fee d = "0.01").

(** The Solana deployment fails at the build, SKALE deploys. *)
Definition solana_fails : world :=
  {| getenv := getenv both_succeed;
     run_command := fun cmd =>
       if same_cmd cmd ["anchor"; "build"] then NotFound
       else run_command both_succeed cmd;
     time_time := time_time both_succeed |}.

(** The chain of [d] is a key of [self.chains]. *)
Definition known (cs : list (string * ChainConfig)) (d : DeploymentResult)
  : bool :=
  match assoc (chain d) cs with Some _ => true | None => false end.


(** A result for a chain that is not configured. *)
Definition stray : DeploymentResult :=
  {| chain := "polygon";
     contract_address := "0x123";
     program_id := "0x123";
     tx_hash := "relayer_tx_hash";
     gas_used := "0";
     relayer_fee := "0.02";
     timestamp := 1700000005 |}.

(** A result whose fee is not a number. *)
Definition unpriced : DeploymentResult :=
  {| chain := "skale";
     contract_address := "0x456";
     program_id := "0x456";
     tx_hash := "relayer_tx_hash";
     gas_used := "0";
     relayer_fee := "n/a";
     timestamp := 1700000006 |}.

(** The fresh deployer of [both_succeed] with the ledger [ds]. *)
Definition with_ledger (ds : list DeploymentResult) : state :=
  {| chains := chains (fresh both_succeed);
     deployments := ds;
     console := [];
     clock_reads := 0 |}.

(** The fee of [d] is a number. *)
Definition priced (d : DeploymentResult) : bool :=
  match PyStr.float (relayer_fee d) with Some _ => true | None => false end.

(** * Properties *)

(** ** Facts about the string methods *)

Module PyStrFacts.
Import PyStr PyStrDefs.

Lemma append_nil_r s : s ++ EmptyString = s.
Proof. induction s; simpl; congruence. Qed.

Lemma append_assoc a b c : (a ++ b) ++ c = a ++ b ++ c.
Proof. induction a; simpl; congruence. Qed.

Lemma length_append a b : String.length (a ++ b) = String.length a + String.length b.
Proof. induction a; simpl; congruence. Qed.

Lemma startswith_app m b : startswith m (m ++ b) = true.
Proof. induction m; simpl; [reflexivity|]. now rewrite Ascii.eqb_refl. Qed.

Lemma startswith_shorter p a x :
  startswith p (a ++ x) = true -> String.length p <= String.length a ->
  startswith p a = true.
Proof.
  revert a; induction p as [|c p IH]; intros [|d a]; simpl; try reflexivity; try lia.
  rewrite !andb_true_iff. intros [-> H] L. split; [reflexivity|]. apply IH; [assumption|lia].
Qed.

Lemma startswith_longer p a x :
  startswith p (a ++ x) = true -> String.length a <= String.length p ->
  startswith (drop (String.length a) p) x = true.
Proof.
  revert a; induction p as [|c p IH]; intros [|d a]; simpl; try lia; try (intros; assumption).
  rewrite andb_true_iff. intros [_ H] L. apply IH; [assumption|lia].
Qed.

Lemma length_drop k s : String.length (drop k s) = String.length s - k.
Proof. revert s; induction k; intros [|c s]; simpl; auto. Qed.

Lemma contains_startswith m s : startswith m s = true -> contains m s = true.
Proof. intros H. destruct s; simpl; rewrite H; reflexivity. Qed.

Lemma contains_app a m b : contains m (a ++ m ++ b) = true.
Proof.
  induction a as [|c a IH]; simpl.
  - apply contains_startswith, startswith_app.
  - rewrite IH. apply orb_true_r.
Qed.

Lemma clear_before_unbordered sep a b :
  has_border sep = false -> contains sep a = false ->
  clear_before sep a (sep ++ b) = true.
Proof.
  intros HB. induction a as [|c a IH]; [reflexivity|].
  intros HC. simpl in HC. apply orb_false_iff in HC. destruct HC as [HS HC].
  cbn [clear_before]. rewrite (IH HC), andb_true_r.
  apply negb_true_iff. destruct (startswith sep (String c a ++ sep ++ b)) eqn:E; [exfalso|reflexivity].
  destruct (le_lt_dec (String.length sep) (String.length (String c a))) as [L|L].
  - rewrite (startswith_shorter _ _ _ E L) in HS. discriminate.
  - pose proof (startswith_longer _ _ _ E (Nat.lt_le_incl _ _ L)) as H1.
    apply startswith_shorter in H1; [|rewrite length_drop; lia].
    assert (has_border sep = true); [|congruence].
    apply existsb_exists. exists (String.length (String c a)). split; [|assumption].
    apply in_seq. simpl in *. lia.
Qed.

Lemma split_from_skip sep x cur b :
  split_from sep (String.length x) cur (x ++ b) = split_from sep 0 cur b.
Proof. induction x; simpl; auto. Qed.

Lemma split_from_first sep a b cur :
  sep <> EmptyString -> clear_before sep a (sep ++ b) = true ->
  split_from sep 0 cur (a ++ sep ++ b) = (cur ++ a) :: split_from sep 0 EmptyString b.
Proof.
  intros NE. revert cur. induction a as [|c a IH]; intros cur H.
  - rewrite append_nil_r. destruct sep as [|c0 sep']; [congruence|].
    cbn [append]. cbn [split_from].
    change (String c0 (sep' ++ b)) with (String c0 sep' ++ b).
    rewrite startswith_app. f_equal.
    replace (String.length (String c0 sep') - 1) with (String.length sep')
      by (cbn [String.length]; lia).
    apply split_from_skip.
  - cbn [clear_before] in H. apply andb_true_iff in H. destruct H as [H1 H2].
    apply negb_true_iff in H1.
    cbn [append] in *. cbn [split_from]. rewrite H1. rewrite (IH _ H2).
    rewrite append_assoc. reflexivity.
Qed.

Lemma split_from_absent sep s cur :
  contains sep s = false -> split_from sep 0 cur s = [cur ++ s].
Proof.
  revert cur; induction s as [|c s IH]; intros cur H.
  - simpl. now rewrite append_nil_r.
  - cbn [contains] in H. apply orb_false_iff in H. destruct H as [H1 H2].
    cbn [split_from]. rewrite H1, (IH _ H2), append_assoc. reflexivity.
Qed.

(** [(a + sep + b).split(sep)[1] == b] when the occurrence shown is
    the only one. *)
Lemma split_second sep a b :
  has_border sep = false -> contains sep a = false -> contains sep b = false ->
  nth 1 (split sep (a ++ sep ++ b)) EmptyString = b.
Proof.
  intros HB Ha Hb. unfold split.
  assert (sep <> EmptyString) by (intros ->; destruct b; discriminate).
  rewrite split_from_first; auto using clear_before_unbordered.
  rewrite split_from_absent by assumption. reflexivity.
Qed.
End PyStrFacts.

Lemma extract_absent m lines :
  existsb (PyStr.contains m) lines = false -> extract m lines = None.
Proof.
  induction lines as [|l ls IH]; simpl; [reflexivity|].
  intros H. apply orb_false_iff in H. destruct H as [-> H]. auto.
Qed.

(** Re-associates a console grown one event at a time. *)
Ltac norm_console :=
  repeat match goal with
    | |- context [((?a ++ ?b) ++ ?c)%list] => rewrite <- (app_assoc a b c)
    end;
  cbn [app].

Ltac script_step :=
  cbn -[PyStr.split PyStr.strip PyStr.contains extract PyStr.nl
        PyStr.float PyStr.upper Z.eqb String.eqb PRIVATE_KEY ENABLE_REBATES].

Ltac run_script :=
  script_step; try (change (0 =? 0)%Z with true; script_step).

Ltac unfold_script :=
  unfold deploy, deploy_solana, deploy_skale, deploy_handlers,
    sync_cross_chain, sync_body, check_environment, probe,
    try_except, bind, subprocess_run, print, printf, emit, ret, raise,
    append_deployment, now, get_deployments, lift in *.

Ltac returns_none :=
  eexists; split;
  [ left; unfold logged; norm_console; reflexivity | reflexivity ].

Ltac returns_some v :=
  eexists; split;
  [ right; exists v; split; [discriminate|];
    unfold logged, recorded; cbn; norm_console; reflexivity
  | reflexivity ].

Lemma deploy_cases c w s :
  exists tr, 
    (deploy w c s = (Ok None, logged tr s) \/
     exists v,
       v <> EmptyString /\
       let d := deployed c v (time_time w (clock_reads s)) in
       deploy w c s = (Ok (Some d), logged tr (recorded d s)))
    /\ quiet tr = true.
Proof.
  destruct c; unfold_script; run_script.
  - destruct (run_command w ["anchor"; "build"]) as [|m|rc o e]; run_script;
      [returns_none | returns_none | ].
    destruct (rc =? 0)%Z; run_script; [ | returns_none].
    destruct (run_command w solana_deploy_cmd) as [|m|rc2 o2 e2]; run_script;
      [returns_none | returns_none | ].
    destruct (rc2 =? 0)%Z; run_script; [ | returns_none].
    destruct (extract _ _) as [[|a v]|]; run_script;
      [returns_none | returns_some (String a v) | returns_none].
  - destruct (run_command w skale_deploy_cmd) as [|m|rc2 o2 e2]; run_script;
      [returns_none | returns_none | ].
    destruct (rc2 =? 0)%Z; run_script; [ | returns_none].
    destruct (extract _ _) as [[|a v]|]; run_script;
      [returns_none | returns_some (String a v) | returns_none].
Qed.

Lemma extract_first m before line after :
  existsb (PyStr.contains m) before = false ->
  PyStr.contains m line = true ->
  extract m (before ++ line :: after)
  = Some (PyStr.strip (nth 1 (PyStr.split m line) EmptyString)).
Proof.
  intros HB HL. induction before as [|l ls IH]; simpl in *.
  - now rewrite HL.
  - apply orb_false_iff in HB. destruct HB as [-> HB]. auto.
Qed.

Lemma deploy_success c w s out err v :
  built w c = true ->
  run_command w (deploy_cmd c) = Exited 0 out err ->
  extract (marker c) (PyStr.split PyStr.nl out) = Some v ->
  v <> EmptyString ->
  exists tr,
    let d := deployed c v (time_time w (clock_reads s)) in
    deploy w c s = (Ok (Some d), logged tr (recorded d s)).
Proof.
  intros B R X NE. destruct v as [|a v]; [congruence|].
  destruct c; unfold built, deploy_cmd, marker in *; unfold_script; run_script.
  - destruct (run_command w ["anchor"; "build"]) as [| |[] ? ?]; try discriminate.
    run_script. rewrite R. run_script. rewrite X. run_script.
    eexists. unfold logged, recorded; cbn; norm_console; reflexivity.
  - rewrite R. run_script. rewrite X. run_script.
    eexists. unfold logged, recorded; cbn; norm_console; reflexivity.
Qed.

Lemma deploy_unparseable c w s out err :
  built w c = true ->
  run_command w (deploy_cmd c) = Exited 0 out err ->
  existsb (PyStr.contains (marker c)) (PyStr.split PyStr.nl out) = false ->
  exists tr,
    deploy w c s = (Ok None, logged tr s) /\
    last tr (Spawn []) = Print [Str (unparseable_msg c)].
Proof.
  intros B R X. apply extract_absent in X.
  destruct c; unfold built, deploy_cmd, marker in *; unfold_script; run_script.
  - destruct (run_command w ["anchor"; "build"]) as [| |[] ? ?]; try discriminate.
    run_script. rewrite R. run_script. rewrite X. run_script.
    eexists. unfold logged. norm_console. split; reflexivity.
  - rewrite R. run_script. rewrite X. run_script.
    eexists. unfold logged. norm_console. split; reflexivity.
Qed.

Lemma deploy_failure c w s rc out err :
  built w c = true ->
  run_command w (deploy_cmd c) = Exited rc out err ->
  rc <> 0%Z ->
  exists tr,
    deploy w c s = (Ok None, logged tr s) /\
    last tr (Spawn []) = Print [Str (failure_prefix c ++ err)].
Proof.
  intros B R NZ. apply Z.eqb_neq in NZ.
  destruct c; unfold built, deploy_cmd, failure_prefix in *; unfold_script; run_script.
  - destruct (run_command w ["anchor"; "build"]) as [| |[] ? ?]; try discriminate.
    run_script. rewrite R. run_script. rewrite NZ. run_script.
    eexists. unfold logged. norm_console. split; reflexivity.
  - rewrite R. run_script. rewrite NZ. run_script.
    eexists. unfold logged. norm_console. split; reflexivity.
Qed.

(** ** Computations that do not touch the ledger *)

Section Emits.

Variable P : event -> Prop.

Lemma emits_nothing {A} (c : M A) :
  (forall s, snd (c s) = s) -> emits P c.
Proof.
  intros H s. exists [], 0. rewrite H. destruct s; unfold advanced; cbn.
  now rewrite app_nil_r.
Qed.

Lemma emits_ret {A} (a : A) : emits P (ret a).
Proof. now apply emits_nothing. Qed.

Lemma emits_raise {A} (e : exn) : emits P (@raise A e).
Proof. now apply emits_nothing. Qed.

Lemma emits_lift {A} (r : result A) : emits P (lift r).
Proof. now apply emits_nothing. Qed.

Lemma emits_get_deployments : emits P get_deployments.
Proof. now apply emits_nothing. Qed.

Lemma emits_chain_config key : emits P (chain_config key).
Proof.
  apply emits_nothing. intros s. unfold chain_config.
  now destruct (assoc key (chains s)).
Qed.

Lemma emits_emit e : P e -> emits P (emit e).
Proof.
  intros H s. exists [e], 0. split; [reflexivity|]. now constructor.
Qed.

Lemma emits_now w : emits P (now w).
Proof.
  intros s. exists [], 1. unfold advanced; cbn. rewrite app_nil_r. now split.
Qed.

Lemma emits_bind {A B} (c : M A) (k : A -> M B) :
  emits P c -> (forall a, emits P (k a)) -> emits P (bind c k).
Proof.
  intros Hc Hk s. unfold bind.
  destruct (Hc s) as (tr1 & n1 & E1 & F1).
  destruct (c s) as [[a|e] s1]; cbn in E1; subst s1.
  - destruct (Hk a (advanced tr1 n1 s)) as (tr2 & n2 & E2 & F2).
    exists (tr1 ++ tr2)%list, (n2 + n1). rewrite E2. unfold advanced; cbn.
    rewrite app_assoc, Nat.add_assoc. split; [reflexivity|].
    apply Forall_app; now split.
  - now exists tr1, n1.
Qed.

Lemma emits_try_except {A} (c : M A) (h : exn -> option (M A)) :
  emits P c -> (forall e k, h e = Some k -> emits P k) ->
  emits P (try_except c h).
Proof.
  intros Hc Hh s. unfold try_except.
  destruct (Hc s) as (tr1 & n1 & E1 & F1).
  destruct (c s) as [[a|e] s1]; cbn in E1; subst s1.
  - now exists tr1, n1.
  - destruct (h e) as [k|] eqn:E.
    + destruct (Hh e k E (advanced tr1 n1 s)) as (tr2 & n2 & E2 & F2).
      exists (tr1 ++ tr2)%list, (n2 + n1). rewrite E2. unfold advanced; cbn.
      rewrite app_assoc, Nat.add_assoc. split; [reflexivity|].
      apply Forall_app; now split.
    + now exists tr1, n1.
Qed.

Lemma emits_if {A} (b : bool) (c1 c2 : M A) :
  emits P c1 -> emits P c2 -> emits P (if b then c1 else c2).
Proof. now destruct b. Qed.

Lemma emits_mapM {A B} (f : A -> M B) (l : list A) :
  (forall a, emits P (f a)) -> emits P (mapM f l).
Proof.
  intros Hf. induction l as [|a l IH]; cbn [mapM].
  - apply emits_ret.
  - apply emits_bind; [apply Hf|]. intros b.
    apply emits_bind; [apply IH|]. intros bs. apply emits_ret.
Qed.

Lemma emits_subprocess_run w cmd check :
  P (Spawn cmd) -> emits P (subprocess_run w cmd check).
Proof.
  intros H. unfold subprocess_run. apply emits_bind; [now apply emits_emit|].
  intros _. destruct (run_command w cmd); [apply emits_raise ..|].
  destruct (check && _); [apply emits_raise | apply emits_ret].
Qed.

End Emits.

(** Decomposes a computation into its primitive steps; what remains
    is to show that each event written satisfies the predicate. *)
Ltac emits_steps :=
  repeat lazymatch goal with
    | |- emits _ (ret _) => apply emits_ret
    | |- emits _ (raise _) => apply emits_raise
    | |- emits _ (lift _) => apply emits_lift
    | |- emits _ get_deployments => apply emits_get_deployments
    | |- emits _ (chain_config _) => apply emits_chain_config
    | |- emits _ (now _) => apply emits_now
    | |- emits _ (subprocess_run _ _ _) => apply emits_subprocess_run
    | |- emits _ (mapM _ _) => apply emits_mapM; intros ?
    | |- emits _ (print _) => apply emits_emit
    | |- emits _ (printf _) => apply emits_emit
    | |- emits _ (emit _) => apply emits_emit
    | |- emits _ (bind _ _) => apply emits_bind; [|intros ?]
    | |- emits _ (if _ then _ else _) => apply emits_if
    | |- emits _ (try_except _ _) =>
        apply emits_try_except;
        [|let e := fresh "e" in let k := fresh "k" in let E := fresh "E" in
          intros e k E; destruct e; inversion E; subst; clear E]
    end.

Lemma emits_check_environment w :
  emits (fun e => landmark e = false /\ is_probe e = true)
        (check_environment w).
Proof.
  unfold check_environment, probe. emits_steps; split; reflexivity.
Qed.

Lemma bystander_report_details i ds : bystander (report_details i ds).
Proof.
  revert i. induction ds as [|d ds IH]; intros i; cbn [report_details].
  - apply emits_ret.
  - unfold bystander. emits_steps; try exact I. apply IH.
Qed.

Lemma bystander_explorer_links ds : bystander (explorer_links ds).
Proof.
  induction ds as [|d ds IH]; cbn [explorer_links].
  - apply emits_ret.
  - unfold bystander. emits_steps; try exact I. apply IH.
Qed.

Lemma bystander_generate_report w : bystander (generate_report w).
Proof.
  unfold generate_report, bystander. emits_steps; try exact I.
  apply bystander_report_details.
Qed.

Lemma bystander_report_and_links w : bystander (report_and_links w).
Proof.
  unfold report_and_links, bystander.
  apply emits_bind; [apply bystander_generate_report | intros _].
  emits_steps; try exact I. apply bystander_explorer_links.
Qed.

Lemma float_solana_fee :
  PyStr.float "0.001" = Some (PyStr.Finite (1 # 1000)).
Proof. vm_compute. reflexivity. Qed.

Lemma float_skale_fee :
  PyStr.float "0.01" = Some (PyStr.Finite (1 # 100)).
Proof. vm_compute. reflexivity. Qed.

Ltac report_step :=
  cbn -[PyStr.float PyStr.add PyStr.upper PyStr.nl ENABLE_REBATES];
  rewrite ?float_solana_fee, ?float_skale_fee;
  cbn -[PyStr.float PyStr.add PyStr.upper PyStr.nl ENABLE_REBATES].

(** ** The run up to the branch on the results *)

Lemma check_environment_fst w s s' :
  fst (check_environment w s) = fst (check_environment w s').
Proof.
  unfold_script. script_step.
  destruct (run_command w ["node"; "--version"]); script_step; try reflexivity.
  destruct (run_command w ["python3"; "--version"]); script_step; try reflexivity.
  destruct (run_command w ["anchor"; "--version"]); script_step; try reflexivity;
    (destruct (run_command w ["npx"; "hardhat"; "--version"]); script_step; try reflexivity;
     destruct (String.eqb _ _); reflexivity).
Qed.

Lemma quiet_Forall tr :
  Forall (fun e => landmark e = false /\ is_probe e = true) tr -> quiet tr = true.
Proof.
  intros H. apply forallb_forall. intros e He.
  rewrite Forall_forall in H. destruct (H e He) as [-> _]. reflexivity.
Qed.

Ltac settle_reached :=
  split; [|split; [|split]]; cycle 3;
  [ f_equal; unfold logged, advanced, recorded, successes; cbn;
    norm_console; rewrite ?app_nil_r; reflexivity
  | cbn [app]; unfold quiet in *; cbn [forallb];
    match goal with
    | F0 : _ = true, Q1 : _ = true, Q2 : _ = true |- _ =>
        rewrite !forallb_app, F0, Q1, Q2
    end; reflexivity
  | first [now left | right; eauto] .. ].

Lemma run_reaches_settle sync w s :
  fst (check_environment w s) = Ok true ->
  exists tr n r1 r2,
    quiet tr = true /\ outcome_of Solana r1 /\ outcome_of Skale r2 /\
    run_full_deployment_with w sync s
    = settle w sync r1 r2
        {| chains := chains s;
           deployments := deployments s ++ successes r1 r2;
           console := console s ++ tr;
           clock_reads := n + clock_reads s |}.
Proof.
  intros HC. unfold run_full_deployment_with.
  unfold bind at 1. unfold print at 1, printf, emit.
  set (s1 := {| chains := chains s; deployments := deployments s;
                console := console s ++ [ _ ]; clock_reads := clock_reads s |}).
  match type of s1 with _ => match eval unfold s1 in s1 with
    | {| console := (_ ++ [?e])%list |} => pose (e0 := e) end end.
  unfold bind at 1.
  rewrite (check_environment_fst w s s1) in HC.
  destruct (emits_check_environment w s1) as (tr0 & n0 & E0 & F0).
  destruct (check_environment w s1) as [r s2]. cbn in HC, E0. subst r s2.
  cbn [negb]. cbv iota. apply quiet_Forall in F0.
  unfold bind at 1.
  destruct (deploy_cases Solana w (advanced tr0 n0 s1)) as (tr1 & [E1 | (v1 & NE1 & E1)] & Q1);
    cbv zeta in E1; cbn [deploy] in E1; rewrite E1; clear E1;
    unfold bind at 1.
  - match goal with |- context [deploy_skale w ?st] =>
      destruct (deploy_cases Skale w st) as (tr2 & [E2 | (v2 & NE2 & E2)] & Q2) end;
      cbv zeta in E2; cbn [deploy] in E2; rewrite E2; clear E2.
    + exists ([e0] ++ tr0 ++ tr1 ++ tr2)%list, n0, None, None. settle_reached.
    + eexists ([e0] ++ tr0 ++ tr1 ++ tr2)%list, (S n0), None, (Some _).
      settle_reached.
  - match goal with |- context [deploy_skale w ?st] =>
      destruct (deploy_cases Skale w st) as (tr2 & [E2 | (v2 & NE2 & E2)] & Q2) end;
      cbv zeta in E2; cbn [deploy] in E2; rewrite E2; clear E2.
    + eexists ([e0] ++ tr0 ++ tr1 ++ tr2)%list, (S n0), (Some _), None.
      settle_reached.
    + eexists ([e0] ++ tr0 ++ tr1 ++ tr2)%list, (S (S n0)), (Some _), (Some _).
      settle_reached.
Qed.

(** Finds an event in an explicit console. *)
Ltac find_in :=
  cbn [In]; repeat first [left; reflexivity | right].

Ltac all_shown :=
  unfold shown, entry_lines; repeat (constructor; [find_in|]); constructor.

Lemma report_one w c v t id s :
  chains s = configured_chains w id ->
  deployments s = [deployed c v t] ->
  exists tr,
    report_and_links w s = (Ok tt, logged tr s) /\
    count (is_print report_banner) tr = 1 /\
    count is_entry tr = 1 /\
    count (is_print sync_banner) tr = 0 /\
    In (Print [Str "Total Deployments: "; Int 1]) tr /\
    count (is_print single_chain_status) tr = 1 /\
    count (is_print synchronized_status) tr = 0 /\
    shown (entry_lines 1 (deployed c v t) (token c)) tr.
Proof.
  destruct s as [ch ds k n]. cbn [chains deployments]. intros -> ->.
  unfold report_and_links, generate_report, total_savings.
  unfold_script.
  destruct c; report_step; destruct (ENABLE_REBATES w); report_step;
  (eexists; split; [unfold logged; norm_console; reflexivity|]).
  all: split; [reflexivity|]; split; [reflexivity|]; split; [reflexivity|].
  all: split; [find_in|]; split; [reflexivity|]; split; [reflexivity|].
  all: all_shown.
Qed.

Lemma report_two w v1 t1 v2 t2 id s :
  chains s = configured_chains w id ->
  deployments s = [deployed Solana v1 t1; deployed Skale v2 t2] ->
  exists tr,
    report_and_links w s = (Ok tt, logged tr s) /\
    count (is_print report_banner) tr = 1 /\
    count is_entry tr = 2 /\
    count (is_print sync_banner) tr = 0 /\
    In (Print [Str "Total Deployments: "; Int 2]) tr /\
    count (is_print synchronized_status) tr = 1 /\
    count (is_print single_chain_status) tr = 0 /\
    shown (entry_lines 1 (deployed Solana v1 t1) "SOL") tr /\
    shown (entry_lines 2 (deployed Skale v2 t2) "sFUEL") tr.
Proof.
  destruct s as [ch ds k n]. cbn [chains deployments]. intros -> ->.
  unfold report_and_links, generate_report, total_savings.
  unfold_script.
  report_step; destruct (ENABLE_REBATES w); report_step;
  (eexists; split; [unfold logged; norm_console; reflexivity|]).
  all: split; [reflexivity|]; split; [reflexivity|]; split; [reflexivity|].
  all: split; [find_in|]; split; [reflexivity|]; split; [reflexivity|].
  all: split; all_shown.
Qed.

(** ** The console between two states *)

Lemma emitted_app s s' tr :
  console s' = (console s ++ tr)%list -> emitted s s' = tr.
Proof.
  intros E. unfold emitted. rewrite E, skipn_app, skipn_all, Nat.sub_diag.
  reflexivity.
Qed.

Lemma count_app p tr1 tr2 : count p (tr1 ++ tr2) = count p tr1 + count p tr2.
Proof. unfold count. now rewrite filter_app, length_app. Qed.

Lemma quiet_count tr :
  quiet tr = true ->
  count (is_print sync_banner) tr = 0 /\
  count (is_print report_banner) tr = 0 /\
  count is_entry tr = 0.
Proof.
  unfold quiet, count. induction tr as [|e tr IH]; cbn [forallb filter]; [easy|].
  rewrite andb_true_iff, negb_true_iff. unfold landmark at 1.
  rewrite !orb_false_iff. intros [[[-> ->] ->] H]. auto.
Qed.

(** ** [run_full_deployment], statement by statement *)

Lemma run_unfold sync w s :
  run_full_deployment_with w sync s =
  let s1 := snd (print start_banner s) in
  match check_environment w s1 with
  | (Ok true, s2) =>
      match deploy_solana w s2 with
      | (Ok r1, s3) =>
          match deploy_skale w s3 with
          | (Ok r2, s4) => settle w sync r1 r2 s4
          | (Raise e, s4) => (Raise e, s4)
          end
      | (Raise e, s3) => (Raise e, s3)
      end
  | (Ok false, s2) => print halt_message s2
  | (Raise e, s2) => (Raise e, s2)
  end.
Proof.
  unfold run_full_deployment_with, bind at 1 2. cbn [print printf emit snd].
  destruct (check_environment w _) as [[[]|e] s2]; reflexivity.
Qed.

(** * The claims *)

(** ** C3: the environment check *)

Lemma check_environment_result w s :
  forallb (responds w) version_cmds = true ->
  fst (check_environment w s)
  = Ok (found w ["node"; "--version"] && found w ["python3"; "--version"]
        && key_configured w).
Proof.
  unfold version_cmds, responds, found, key_configured. cbn [forallb].
  rewrite !andb_true_iff. intros (H1 & H2 & H3 & H4 & _).
  unfold_script. script_step.
  destruct (run_command w ["node"; "--version"]); try discriminate;
    script_step; [reflexivity|].
  destruct (run_command w ["python3"; "--version"]); try discriminate;
    script_step; [reflexivity|].
  destruct (run_command w ["anchor"; "--version"]); try discriminate; script_step;
    (destruct (run_command w ["npx"; "hardhat"; "--version"]);
     try discriminate; script_step;
     destruct (String.eqb (PRIVATE_KEY w) _); reflexivity).
Qed.

(** C3, as the script has it.  When no probe raises anything but
    [FileNotFoundError], [check_environment] returns [False] exactly
    when Node.js or Python3 is not found or the private key is the
    placeholder; a missing Anchor CLI or Hardhat is only printed.  A
    failed check ends [run_full_deployment] at once: the ledger is
    untouched, the only subprocess calls were version probes, and the
    last line printed is the halt message. *)
Theorem check_environment_verdict w s :
  forallb (responds w) version_cmds = true ->
  let verdict := found w ["node"; "--version"]
                 && found w ["python3"; "--version"]
                 && key_configured w in
  let checked := check_environment w s in
  let run := run_full_deployment w s in
  fst checked = Ok verdict /\
  deployments (snd checked) = deployments s /\
  (verdict = false ->
   fst run = Ok tt /\
   deployments (snd run) = deployments s /\
   forallb is_probe (emitted s (snd run)) = true /\
   last (emitted s (snd run)) (Spawn []) = Print [Str halt_message]).
Proof.
  intros R. cbv zeta. split; [now apply check_environment_result|].
  split.
  { destruct (emits_check_environment w s) as (tr & n & -> & _). reflexivity. }
  intros V. unfold run_full_deployment. rewrite run_unfold. cbv zeta.
  set (s1 := snd (print start_banner s)).
  pose proof (check_environment_result w s1 R) as C. rewrite V in C.
  destruct (emits_check_environment w s1) as (tr & n & E & F).
  destruct (check_environment w s1) as [r s2]. cbn [fst snd] in C, E. subst r s2.
  cbn [print printf emit fst snd advanced deployments console chains].
  rewrite (emitted_app s _ ([Print [Str start_banner]] ++ tr ++ [Print [Str halt_message]]))
    by (subst s1; cbn; now rewrite <- !app_assoc).
  repeat split.
  - cbn [app forallb is_probe andb]. rewrite forallb_app.
    replace (forallb is_probe tr) with true; [reflexivity|].
    symmetry. apply forallb_forall. intros e He.
    rewrite Forall_forall in F. now apply F.
  - cbn [app]. rewrite app_comm_cons, last_last. reflexivity.
Qed.

Lemma check_environment_verdict_witness :
  forallb (responds no_node) version_cmds = true /\
  fst (check_environment no_node (fresh no_node)) = Ok false /\
  fst (run_full_deployment no_node (fresh no_node)) = Ok tt.
Proof.
  split; [reflexivity|].
  pose proof (check_environment_verdict no_node (fresh no_node) eq_refl)
    as (H1 & _ & H3).
  split; [exact H1|]. now apply H3.
Defined.

(** C3, as stated, fails: with the credential present and Node.js
    missing the check does not pass. *)
Lemma check_environment_needs_node :
  key_configured no_node = true /\
  fst (check_environment no_node (fresh no_node)) = Ok false.
Proof. split; reflexivity. Qed.

(** ** C10 and C7: the bridge step *)

(** C10.  [sync_cross_chain] returns [True] for every pair of
    deployment results, in every world and state: nothing in its [try]
    block raises, so the handler that returns [False] is never
    entered. *)
Theorem sync_cross_chain_returns_true w solana_deployment skale_deployment s :
  fst (sync_cross_chain w solana_deployment skale_deployment s) = Ok true.
Proof. reflexivity. Qed.

Lemma printed_records_app tr1 tr2 :
  printed_records (tr1 ++ tr2)
  = (printed_records tr1 ++ printed_records tr2)%list.
Proof.
  induction tr1 as [|e tr1 IH]; simpl; [reflexivity|].
  destruct e as [[|[] [|? ?]]|]; simpl; rewrite ?IH; reflexivity.
Qed.

(** C7.  Calling [sync_cross_chain] twice in a row with the same pair
    prints two [sync_data] documents whose ['sacred_state'] is the
    same: matrix level 1, earnings pool 0 and the two contract
    addresses as allowlist.  (Their timestamps are two successive
    clock readings.) *)
Theorem sync_cross_chain_idempotent w a b s :
  let twice := sync_cross_chain w a b ;; sync_cross_chain w a b in
  exists r1 r2,
    printed_records (console (snd (twice s)))
    = (printed_records (console s) ++ [r1; r2])%list /\
    sacred_state r1 = sacred_state r2 /\
    sacred_state r1 = {| matrix_level := 1;
                         earnings_pool := 0;
                         allowlist := [contract_address a;
                                       contract_address b] |}.
Proof.
  cbv zeta. eexists _, _. split; [|split].
  - cbn. rewrite !printed_records_app. cbn. rewrite !app_nil_r.
    rewrite <- app_assoc. reflexivity.
  - reflexivity.
  - reflexivity.
Qed.

(** ** C4, C8 and C5: the deployers *)

(** C4, as the script has it.  A deploy invocation that exits with
    status 0 without a marker line, and one that exits with a nonzero
    status, both make the deployer return [None], the same value, and
    leave the ledger as it was: no result is produced or recorded.
    The two cases differ only in the last line the deployer prints,
    the "could not extract" message in the first and the "deployment
    failed" message followed by the process' stderr in the second,
    two different texts whatever stderr holds. *)
Theorem unparseable_and_failure_return_none
  c w1 w2 s out1 err1 rc out2 err2 :
  built w1 c = true ->
  run_command w1 (deploy_cmd c) = Exited 0 out1 err1 ->
  existsb (PyStr.contains (marker c)) (PyStr.split PyStr.nl out1) = false ->
  built w2 c = true ->
  run_command w2 (deploy_cmd c) = Exited rc out2 err2 ->
  rc <> 0%Z ->
  let unparseable := deploy w1 c s in
  let failure := deploy w2 c s in
  fst unparseable = Ok None /\
  fst failure = Ok None /\
  deployments (snd unparseable) = deployments s /\
  deployments (snd failure) = deployments s /\
  last (emitted s (snd unparseable)) (Spawn [])
  = Print [Str (unparseable_msg c)] /\
  last (emitted s (snd failure)) (Spawn [])
  = Print [Str (failure_prefix c ++ err2)] /\
  last (emitted s (snd unparseable)) (Spawn [])
  <> last (emitted s (snd failure)) (Spawn []).
Proof.
  intros B1 R1 X B2 R2 NZ. cbv zeta.
  destruct (deploy_unparseable c w1 s out1 err1 B1 R1 X) as (tr1 & E1 & L1).
  destruct (deploy_failure c w2 s rc out2 err2 B2 R2 NZ) as (tr2 & E2 & L2).
  rewrite E1, E2. cbn [fst snd logged deployments].
  rewrite (emitted_app s _ tr1), (emitted_app s _ tr2) by reflexivity.
  rewrite L1, L2. repeat split. destruct c; discriminate.
Qed.

Lemma unparseable_and_failure_return_none_witness :
  fst (deploy skale_silent Skale blank) = Ok None /\
  fst (deploy skale_crashes Skale blank) = Ok None /\
  last (emitted blank (snd (deploy skale_silent Skale blank))) (Spawn [])
  <> last (emitted blank (snd (deploy skale_crashes Skale blank))) (Spawn []).
Proof.
  destruct (unparseable_and_failure_return_none Skale skale_silent
              skale_crashes blank _ _ 1%Z _ _ eq_refl eq_refl eq_refl eq_refl
              eq_refl ltac:(discriminate))
    as (H1 & H2 & _ & _ & _ & _ & H7).
  exact (conj H1 (conj H2 H7)).
Defined.

(** C4, as stated, fails: the script has no error values.  A SKALE
    script that exits with status 0 without a marker line and one that
    exits with status 1 make [deploy_skale] return the same value,
    [None]; the caller cannot tell one from the other, and the run
    goes on in the same way after both: it prints that only Solana
    deployed and ends with the same ledger. *)
Lemma unparseable_returns_what_failure_returns :
  fst (deploy_skale skale_silent blank) = fst (deploy_skale skale_crashes blank)
  /\
  fst (deploy_skale skale_silent blank) = Ok None /\
  In (Print [Str only_solana_message])
    (console (snd (main skale_silent blank))) /\
  In (Print [Str only_solana_message])
    (console (snd (main skale_crashes blank))) /\
  final_ledger skale_silent = final_ledger skale_crashes.
Proof.
  split; [reflexivity|]. split; [reflexivity|].
  split; [vm_compute; repeat first [left; reflexivity | right]|].
  split; [vm_compute; repeat first [left; reflexivity | right]|].
  vm_compute. reflexivity.
Qed.

(** C8.  When the Anchor build succeeds, the deploy script exits with
    status 0 and the first line of its output that contains
    ["Program ID:"] reads [pre ++ "Program ID:" ++ raw], the marker
    occurring in neither [pre] nor [raw], then [deploy_solana] returns
    a result for chain ["solana"] whose contract address and program
    id are both [raw] stripped of surrounding whitespace, provided
    that is not empty, and whose gas used is ["0"]; the result is
    appended to the ledger. *)
Theorem deploy_solana_reads_program_id
  w s out err before pre raw after value :
  built w Solana = true ->
  run_command w solana_deploy_cmd = Exited 0 out err ->
  PyStr.well_encoded out = true ->
  PyStr.split PyStr.nl out
  = (before ++ (pre ++ "Program ID:" ++ raw)%string :: after)%list ->
  existsb (PyStr.contains "Program ID:") before = false ->
  PyStr.contains "Program ID:" pre = false ->
  PyStr.contains "Program ID:" raw = false ->
  PyStr.strip raw = value ->
  value <> EmptyString ->
  exists d s',
    deploy_solana w s = (Ok (Some d), s') /\
    chain d = "solana" /\
    contract_address d = value /\
    program_id d = value /\
    gas_used d = "0" /\
    deployments s' = (deployments s ++ [d])%list.
Proof.
  intros B R _ L HB Hpre Hraw Hv NE.
  assert (X : extract "Program ID:" (PyStr.split PyStr.nl out) = Some value).
  { rewrite L, extract_first; [| assumption | apply PyStrFacts.contains_app].
    rewrite PyStrFacts.split_second by (assumption || reflexivity).
    now rewrite Hv. }
  destruct (deploy_success Solana w s out err value B R X NE) as [tr E].
  cbv zeta in E. eexists _, _. split; [exact E|]. repeat split.
Qed.

Lemma deploy_solana_reads_program_id_witness :
  exists d s',
    deploy_solana solana_padded blank = (Ok (Some d), s') /\
    chain d = "solana" /\
    contract_address d = "ABC123" /\
    program_id d = "ABC123" /\
    gas_used d = "0" /\
    deployments s' = (deployments blank ++ [d])%list.
Proof.
  apply (deploy_solana_reads_program_id solana_padded blank
           ("Program ID: ABC123" ++ PyStr.chr 160 ++ PyStr.nl) EmptyString
           [] EmptyString (" ABC123" ++ PyStr.chr 160) [EmptyString] "ABC123");
    solve [reflexivity | discriminate].
Defined.

Lemma bystander_sync_cross_chain w a b : bystander (sync_cross_chain w a b).
Proof.
  unfold bystander, sync_cross_chain, sync_body. emits_steps; exact I.
Qed.

Lemma bystander_settle_with w sync r1 r2 :
  (forall a b, bystander (sync a b)) -> bystander (settle w sync r1 r2).
Proof.
  intros H. unfold bystander, settle. destruct r1, r2.
  - apply emits_bind; [apply H|intros _]. apply bystander_report_and_links.
  - apply emits_bind; [now apply emits_emit|intros _].
    apply bystander_report_and_links.
  - apply emits_bind; [now apply emits_emit|intros _].
    apply bystander_report_and_links.
  - now apply emits_emit.
Qed.

Lemma bystander_settle w r1 r2 : bystander (settle w (sync_cross_chain w) r1 r2).
Proof. apply bystander_settle_with, bystander_sync_cross_chain. Qed.

Lemma deploy_ledger c w s :
  match fst (deploy w c s) with
  | Ok (Some d) =>
      deployments (snd (deploy w c s)) = (deployments s ++ [d])%list /\
      chain d = chain_key c
  | Ok None => deployments (snd (deploy w c s)) = deployments s
  | Raise _ => False
  end.
Proof.
  destruct (deploy_cases c w s) as (tr & [E | (v & _ & E)] & _);
    cbv zeta in E; rewrite E; cbn; auto.
Qed.

(** C5, as the script has it.  A deployer that succeeds appends the
    result it returns to [self.deployments] itself; one that fails
    leaves the ledger as it was, and a deployer never raises.  The
    rest of [run_full_deployment], the environment check and the
    branch on the results with the bridge step and the report, never
    changes the ledger. *)
Theorem deployer_appends_its_result c w s :
  match fst (deploy w c s) with
  | Ok (Some d) =>
      deployments (snd (deploy w c s)) = (deployments s ++ [d])%list
  | Ok None => deployments (snd (deploy w c s)) = deployments s
  | Raise _ => False
  end /\
  bystander (check_environment w) /\
  (forall r1 r2, bystander (settle w (sync_cross_chain w) r1 r2)).
Proof.
  split; [|split].
  - pose proof (deploy_ledger c w s) as H.
    destruct (fst (deploy w c s)) as [[d|]|e]; tauto.
  - intros st. destruct (emits_check_environment w st) as (tr & n & E & _).
    exists tr, n. split; [assumption|]. now apply Forall_forall.
  - intros r1 r2. apply bystander_settle.
Qed.

(** C5, as stated, fails: a successful [deploy_solana] changes the
    ledger itself. *)
Lemma deploy_solana_changes_ledger :
  deployments (snd (deploy_solana both_succeed blank)) <> deployments blank.
Proof. discriminate. Qed.

(** ** C1: the total of the relayer fees *)






(** ** C6: the terminal branch *)

Lemma sync_cross_chain_run w a b s :
  exists tr,
    sync_cross_chain w a b s
    = (Ok true, advanced (Print [Str sync_banner] :: tr) 1 s) /\
    quiet tr = true.
Proof.
  unfold_script. cbn -[PyStr.nl]. eexists. unfold advanced.
  norm_console. split; reflexivity.
Qed.

Ltac console_eq :=
  cbn [console snd fst logged advanced recorded];
  repeat match goal with st := _ : state |- _ => subst st end;
  cbn [console snd fst logged advanced recorded];
  rewrite <- ?app_assoc; reflexivity.

Lemma count_quiet_sync tr : quiet tr = true -> count (is_print sync_banner) tr = 0.
Proof. intros H. now apply quiet_count in H. Qed.

Lemma count_quiet_report tr :
  quiet tr = true -> count (is_print report_banner) tr = 0.
Proof. intros H. now apply quiet_count in H. Qed.

Lemma count_quiet_entry tr : quiet tr = true -> count is_entry tr = 0.
Proof. intros H. now apply quiet_count in H. Qed.

Lemma count_cons p e l :
  count p (e :: l) = (if p e then 1 else 0) + count p l.
Proof. unfold count. cbn [filter]. now destruct (p e). Qed.

(** Counts the landmarks on a console made of quiet stretches, known
    events and stretches whose counts are known. *)
Ltac count_console :=
  repeat (rewrite count_app || rewrite count_cons);
  repeat match goal with
    | |- context [if ?b then 1 else 0] =>
        let v := eval vm_compute in b in change b with v; cbv iota
    end;
  rewrite ?count_quiet_sync, ?count_quiet_report, ?count_quiet_entry
    by assumption.

Lemma settle_single w sync c v t id st :
  chains st = configured_chains w id ->
  deployments st = [deployed c v t] ->
  let d := deployed c v t in
  exists trr,
    settle w sync (match c with Solana => Some d | Skale => None end)
                  (match c with Solana => None | Skale => Some d end) st
    = (Ok tt, logged (Print [Str (only_message c)] :: trr) st) /\
    count (is_print report_banner) trr = 1 /\
    count is_entry trr = 1 /\
    count (is_print sync_banner) trr = 0 /\
    In (Print [Str "Total Deployments: "; Int 1]) trr.
Proof.
  intros Hch Hds. cbv zeta.
  set (st1 := snd (print (only_message c) st)).
  destruct (report_one w c v t id st1 Hch Hds)
    as (trr & E & R1 & R2 & R3 & R4 & _).
  exists trr. split; [|auto].
  destruct c; cbn [settle]; unfold bind; cbn [print printf emit];
    fold st1 in E |- *;
    (etransitivity; [exact E|]); unfold logged, st1; cbn;
    now rewrite <- app_assoc.
Qed.

Lemma settle_both w v1 t1 v2 t2 id st :
  chains st = configured_chains w id ->
  deployments st = [deployed Solana v1 t1; deployed Skale v2 t2] ->
  exists trs trr,
    settle w (sync_cross_chain w) (Some (deployed Solana v1 t1))
      (Some (deployed Skale v2 t2)) st
    = (Ok tt, advanced (Print [Str sync_banner] :: trs ++ trr) 1 st) /\
    quiet trs = true /\
    count (is_print report_banner) trr = 1 /\
    count is_entry trr = 2 /\
    count (is_print sync_banner) trr = 0 /\
    In (Print [Str "Total Deployments: "; Int 2]) trr.
Proof.
  intros Hch Hds.
  destruct (sync_cross_chain_run w (deployed Solana v1 t1)
              (deployed Skale v2 t2) st) as (trs & ES & QS).
  destruct (report_two w v1 t1 v2 t2 id
              (advanced (Print [Str sync_banner] :: trs) 1 st) Hch Hds)
    as (trr & E & R1 & R2 & R3 & R4 & _).
  exists trs, trr. split; [|auto].
  cbn [settle]. unfold bind. rewrite ES, E. unfold logged, advanced; cbn.
  now rewrite <- app_assoc.
Qed.

(** C6.  In a run of a fresh deployer that passes the environment
    check, the number of results in the ledger once the deployers have
    returned decides how the run ends.  With two, the bridge step is
    entered once and the report is printed.  With one, the bridge step
    is not entered, the message naming the chain that succeeded is
    printed and the report is printed with a total of one deployment
    and one entry.  With none, neither the bridge step nor the report
    is entered and the last line printed is the message that both
    deployments failed. *)
Theorem terminal_branch w s id :
  chains s = configured_chains w id ->
  deployments s = [] ->
  fst (check_environment w s) = Ok true ->
  let run := run_full_deployment w s in
  let out := emitted s (snd run) in
  fst run = Ok tt /\
  match length (deployments (snd run)) with
  | 0 =>
      count (is_print sync_banner) out = 0 /\
      count (is_print report_banner) out = 0 /\
      last out (Spawn []) = Print [Str all_failed_message]
  | 1 =>
      count (is_print sync_banner) out = 0 /\
      (In (Print [Str only_solana_message]) out \/
       In (Print [Str only_skale_message]) out) /\
      count (is_print report_banner) out = 1 /\
      In (Print [Str "Total Deployments: "; Int 1]) out /\
      count is_entry out = 1
  | 2 =>
      count (is_print sync_banner) out = 1 /\
      count (is_print report_banner) out = 1 /\
      In (Print [Str "Total Deployments: "; Int 2]) out /\
      count is_entry out = 2
  | _ => False
  end.
Proof.
  intros Hch Hds HC. cbv zeta. unfold run_full_deployment.
  destruct (run_reaches_settle (sync_cross_chain w) w s HC)
    as (tr & n & r1 & r2 & Q & O1 & O2 & ->).
  rewrite Hds. cbn [app].
  set (st := {| chains := chains s; deployments := successes r1 r2;
                console := console s ++ tr; clock_reads := n + clock_reads s |}).
  destruct O1 as [-> | (v1 & t1 & _ & ->)], O2 as [-> | (v2 & t2 & _ & ->)];
    cbn [successes app] in *.
  - (* no result *)
    cbn [settle print printf emit fst snd deployments length].
    rewrite (emitted_app s _ (tr ++ [Print [Str all_failed_message]]))
      by console_eq.
    rewrite !count_app, last_last, count_quiet_sync, count_quiet_report
      by assumption.
    repeat split.
  - (* SKALE only *)
    destruct (settle_single w (sync_cross_chain w) Skale v2 t2 id st Hch eq_refl)
      as (trr & E & R1 & R2 & R3 & R4).
    cbv zeta in E. rewrite E. cbn [fst snd logged deployments length].
    rewrite (emitted_app s _ (tr ++ Print [Str only_skale_message] :: trr))
      by console_eq.
    count_console. rewrite R1, R2, R3.
    repeat split.
    + right. apply in_or_app. right. now left.
    + apply in_or_app. right. now right.
  - (* Solana only *)
    destruct (settle_single w (sync_cross_chain w) Solana v1 t1 id st Hch eq_refl)
      as (trr & E & R1 & R2 & R3 & R4).
    cbv zeta in E. rewrite E. cbn [fst snd logged deployments length].
    rewrite (emitted_app s _ (tr ++ Print [Str only_solana_message] :: trr))
      by console_eq.
    count_console. rewrite R1, R2, R3.
    repeat split.
    + left. apply in_or_app. right. now left.
    + apply in_or_app. right. now right.
  - (* both *)
    destruct (settle_both w v1 t1 v2 t2 id st Hch eq_refl)
      as (trs & trr & E & QS & R1 & R2 & R3 & R4).
    rewrite E. cbn [fst snd advanced deployments length].
    rewrite (emitted_app s _ (tr ++ Print [Str sync_banner] :: trs ++ trr))
      by console_eq.
    count_console. rewrite R1, R2, R3.
    repeat split. apply in_or_app. right. right. apply in_or_app. now right.
Qed.

Lemma terminal_branch_witness :
  fst (check_environment skale_crashes (fresh skale_crashes)) = Ok true /\
  fst (run_full_deployment skale_crashes (fresh skale_crashes)) = Ok tt /\
  length (deployments
            (snd (run_full_deployment skale_crashes (fresh skale_crashes))))
  = 1 /\
  count (is_print sync_banner)
    (emitted (fresh skale_crashes)
       (snd (run_full_deployment skale_crashes (fresh skale_crashes))))
  = 0 /\
  count is_entry
    (emitted (fresh skale_crashes)
       (snd (run_full_deployment skale_crashes (fresh skale_crashes))))
  = 1.
Proof.
  pose proof (terminal_branch skale_crashes (fresh skale_crashes) 2046399126
                eq_refl eq_refl eq_refl) as H.
  cbv zeta in H.
  assert (L : length (deployments
                        (snd (run_full_deployment skale_crashes
                                (fresh skale_crashes)))) = 1)
    by (vm_compute; reflexivity).
  rewrite L in H. destruct H as (H1 & H2 & _ & _ & _ & H6).
  split; [reflexivity|]. split; [exact H1|]. split; [exact L|].
  split; [exact H2|exact H6].
Defined.

(** ** C9: the ledger during a run *)

Lemma ledgers_shape w s :
  deployments s = [] ->
  exists tail,
    map deployments (checkpoints w s) = ([[]; []; []] ++ tail)%list /\
    (tail = [[]] \/
     exists L3 L4,
       tail = [L3; L4; L4] /\
       (L3 = [] \/ exists v t, L3 = [deployed Solana v t]) /\
       (L4 = L3 \/ exists v t, L4 = (L3 ++ [deployed Skale v t])%list)).
Proof.
  intros Hds. unfold checkpoints, run_full_deployment. rewrite run_unfold.
  cbv zeta. set (s1 := snd (print start_banner s)).
  destruct (emits_check_environment w s1) as (tr0 & n0 & E0 & _).
  destruct (check_environment w s1) as [r s2]. cbn [snd] in E0. subst s2.
  destruct r as [[]|e].
  2,3: eexists; split; [|left; reflexivity];
       cbn [map deployments advanced print printf emit snd s1 app];
       rewrite Hds; reflexivity.
  destruct (deploy_cases Solana w (advanced tr0 n0 s1))
    as (tr1 & [E1 | (v1 & _ & E1)] & _);
    cbv zeta in E1; cbn [deploy] in E1; rewrite E1; clear E1; cbn [snd].
  all: match goal with |- context [deploy_skale ?w0 ?st] =>
         destruct (deploy_cases Skale w0 st) as (tr2 & [E2 | (v2 & _ & E2)] & _);
         cbv zeta in E2; cbn [deploy] in E2; rewrite E2; clear E2; cbn [snd]
       end.
  all: match goal with |- context [settle ?w0 ?sy ?r1 ?r2 ?st] =>
         destruct (bystander_settle w0 r1 r2 st) as (tr3 & n3 & -> & _)
       end.
  all: cbn [map deployments advanced logged recorded print printf emit snd s1];
       rewrite Hds; cbn [app].
  all: eexists; split; [reflexivity|]; right; eexists _, _;
       split; [reflexivity|];
       split; first [left; reflexivity | right; eexists _, _; reflexivity].
Qed.

(** C9.  In a run that starts with an empty ledger, at every point
    between the statements of [run_full_deployment] the ledger holds
    at most one result per chain, and the ledger at a later point
    extends the ledger at an earlier one: nothing is removed or
    changed.  A result enters the ledger only when a deployer
    succeeds: a deployer that returns a result has appended exactly
    it, one that returns [None] has left the ledger as it was. *)
Theorem ledger_invariant w s :
  deployments s = [] ->
  let ledgers := map deployments (checkpoints w s) in
  Forall (fun l => NoDup (map chain l)) ledgers /\
  ForallOrdPairs (fun l l' => exists more, l' = (l ++ more)%list) ledgers /\
  (forall c st,
     match fst (deploy w c st) with
     | Ok (Some d) =>
         deployments (snd (deploy w c st)) = (deployments st ++ [d])%list
         /\ chain d = chain_key c
     | Ok None => deployments (snd (deploy w c st)) = deployments st
     | Raise _ => False
     end).
Proof.
  intros Hds. cbv zeta.
  destruct (ledgers_shape w s Hds) as (tail & -> & H).
  split; [|split; [|intros c st; apply deploy_ledger]].
  - destruct H as [-> | (L3 & L4 & -> & H3 & H4)].
    + repeat constructor; cbn; tauto.
    + destruct H3 as [-> | (v1 & t1 & ->)], H4 as [-> | (v2 & t2 & ->)];
        repeat constructor; cbn; intuition discriminate.
  - destruct H as [-> | (L3 & L4 & -> & H3 & H4)].
    + repeat constructor; exists []; reflexivity.
    + assert (P3 : exists more, L3 = ([] ++ more)%list) by (now exists L3).
      assert (P4 : exists more, L4 = (L3 ++ more)%list).
      { destruct H4 as [-> | (v & t & ->)]; eexists; [symmetry; apply app_nil_r | reflexivity]. }
      assert (P34 : exists more, L4 = ([] ++ more)%list) by (now exists L4).
      assert (P44 : exists more, L4 = (L4 ++ more)%list)
        by (exists []; now rewrite app_nil_r).
      assert (P0 : exists more, @nil DeploymentResult = ([] ++ more)%list)
        by (now exists []).
      cbn [app]. repeat constructor; assumption.
Qed.

Lemma ledger_invariant_witness :
  Forall (fun l => NoDup (map chain l))
    (map deployments (checkpoints both_succeed (fresh both_succeed))) /\
  length (deployments
            (last (checkpoints both_succeed (fresh both_succeed)) blank)) = 2.
Proof.
  destruct (ledger_invariant both_succeed (fresh both_succeed) eq_refl)
    as (H & _ & _).
  split; [exact H|]. vm_compute. reflexivity.
Defined.

(** * Further properties of the script *)

(** ** The deployers *)

Lemma deploy_no_value c w s out err :
  built w c = true ->
  run_command w (deploy_cmd c) = Exited 0 out err ->
  extract (marker c) (PyStr.split PyStr.nl out) = Some EmptyString ->
  exists tr,
    deploy w c s = (Ok None, logged tr s) /\
    last tr (Spawn []) = Print [Str (unparseable_msg c)].
Proof.
  intros B R X.
  destruct c; unfold built, deploy_cmd, marker in *; unfold_script; run_script.
  - destruct (run_command w ["anchor"; "build"]) as [| |[] ? ?]; try discriminate.
    run_script. rewrite R. run_script. rewrite X. run_script.
    eexists. unfold logged. norm_console. split; reflexivity.
  - rewrite R. run_script. rewrite X. run_script.
    eexists. unfold logged. norm_console. split; reflexivity.
Qed.

Lemma marker_unbordered c : PyStrDefs.has_border (marker c) = false.
Proof. destruct c; reflexivity. Qed.

(** [deploy_skale] on a successful invocation.  When the deploy script
    exits with status 0 and the first line of its output that contains
    ["Contract Address:"] reads [pre ++ "Contract Address:" ++ raw],
    the marker occurring in neither [pre] nor [raw], the deployer
    returns, and appends to the ledger, the result for chain ["skale"]
    whose contract address and program id are [raw] stripped of
    whitespace, provided that is not empty, with the placeholder
    transaction hash, gas ["0"], fee ["0.01"] and the clock reading as
    timestamp. *)
Theorem deploy_skale_reads_contract_address
  w s out err before pre raw after value :
  run_command w skale_deploy_cmd = Exited 0 out err ->
  PyStr.well_encoded out = true ->
  PyStr.split PyStr.nl out
  = (before ++ (pre ++ "Contract Address:" ++ raw)%string :: after)%list ->
  existsb (PyStr.contains "Contract Address:") before = false ->
  PyStr.contains "Contract Address:" pre = false ->
  PyStr.contains "Contract Address:" raw = false ->
  PyStr.strip raw = value ->
  value <> EmptyString ->
  let d := {| chain := "skale";
              contract_address := value;
              program_id := value;
              tx_hash := "relayer_tx_hash";
              gas_used := "0";
              relayer_fee := "0.01";
              timestamp := time_time w (clock_reads s) |} in
  fst (deploy_skale w s) = Ok (Some d) /\
  deployments (snd (deploy_skale w s)) = (deployments s ++ [d])%list.
Proof.
  intros R _ L HB Hpre Hraw Hv NE.
  assert (X : extract "Contract Address:" (PyStr.split PyStr.nl out) = Some value).
  { rewrite L, extract_first; [| assumption | apply PyStrFacts.contains_app].
    rewrite PyStrFacts.split_second by (assumption || reflexivity).
    now rewrite Hv. }
  destruct (deploy_success Skale w s out err value eq_refl R X NE) as [tr E].
  cbv zeta in *. cbn [deploy] in E. rewrite E. split; reflexivity.
Qed.

Lemma deploy_skale_reads_contract_address_witness :
  fst (deploy_skale both_succeed blank)
  = Ok (Some {| chain := "skale";
                contract_address := "0xDEF456";
                program_id := "0xDEF456";
                tx_hash := "relayer_tx_hash";
                gas_used := "0";
                relayer_fee := "0.01";
                timestamp := 1700000000 |}).
Proof.
  apply (deploy_skale_reads_contract_address both_succeed blank
           ("Contract Address: 0xDEF456" ++ PyStr.nl) EmptyString
           [] EmptyString " 0xDEF456" [EmptyString] "0xDEF456");
    solve [reflexivity | discriminate].
Defined.

(** A marker with nothing after it.  When the first line of the output
    that contains the marker has only whitespace after it (blanks or any
    other character for which [str.isspace] holds), the
    deployer treats the output as unreadable although the marker is
    there: it returns [None], leaves the ledger as it was and its last
    line is the "could not extract" message. *)
Theorem marker_without_value c w s out err before pre raw after :
  built w c = true ->
  run_command w (deploy_cmd c) = Exited 0 out err ->
  PyStr.well_encoded out = true ->
  PyStr.split PyStr.nl out
  = (before ++ (pre ++ marker c ++ raw)%string :: after)%list ->
  existsb (PyStr.contains (marker c)) before = false ->
  PyStr.contains (marker c) pre = false ->
  PyStr.contains (marker c) raw = false ->
  PyStr.strip raw = EmptyString ->
  fst (deploy w c s) = Ok None /\
  deployments (snd (deploy w c s)) = deployments s /\
  last (emitted s (snd (deploy w c s))) (Spawn [])
  = Print [Str (unparseable_msg c)].
Proof.
  intros B R _ L HB Hpre Hraw Hv.
  assert (X : extract (marker c) (PyStr.split PyStr.nl out) = Some EmptyString).
  { rewrite L, extract_first; [| assumption | apply PyStrFacts.contains_app].
    rewrite PyStrFacts.split_second
      by (assumption || apply marker_unbordered).
    now rewrite Hv. }
  destruct (deploy_no_value c w s out err B R X) as (tr & E & La).
  rewrite E. cbn [fst snd logged deployments].
  rewrite (emitted_app s _ tr) by reflexivity. auto.
Qed.

Lemma marker_without_value_witness :
  fst (deploy skale_blank Skale blank) = Ok None /\
  deployments (snd (deploy skale_blank Skale blank)) = deployments blank /\
  last (emitted blank (snd (deploy skale_blank Skale blank))) (Spawn [])
  = Print [Str (unparseable_msg Skale)].
Proof.
  apply (marker_without_value Skale skale_blank blank
           ("Contract Address:  " ++ PyStr.chr 160 ++ PyStr.nl) EmptyString
           [] EmptyString ("  " ++ PyStr.chr 160) [EmptyString]);
    reflexivity.
Defined.

(** A marker that occurs twice on its line.  The identifier recorded is
    the text between the first and the second occurrence, stripped:
    what follows the second occurrence is dropped. *)
Theorem marker_twice_on_a_line c w s out err before pre mid rest after value :
  built w c = true ->
  run_command w (deploy_cmd c) = Exited 0 out err ->
  PyStr.well_encoded out = true ->
  PyStr.split PyStr.nl out
  = (before ++ (pre ++ marker c ++ mid ++ marker c ++ rest)%string :: after)%list ->
  existsb (PyStr.contains (marker c)) before = false ->
  PyStr.contains (marker c) pre = false ->
  PyStr.contains (marker c) mid = false ->
  PyStr.strip mid = value ->
  value <> EmptyString ->
  let d := deployed c value (time_time w (clock_reads s)) in
  fst (deploy w c s) = Ok (Some d) /\
  deployments (snd (deploy w c s)) = (deployments s ++ [d])%list.
Proof.
  intros B R _ L HB Hpre Hmid Hv NE.
  assert (NEm : marker c <> EmptyString) by (destruct c; discriminate).
  assert (X : extract (marker c) (PyStr.split PyStr.nl out) = Some value).
  { rewrite L, extract_first; [| assumption | apply PyStrFacts.contains_app].
    unfold PyStr.split.
    rewrite PyStrFacts.split_from_first
      by first [ assumption
               | apply PyStrFacts.clear_before_unbordered;
                 [apply marker_unbordered | assumption] ].
    rewrite PyStrFacts.split_from_first
      by first [ assumption
               | apply PyStrFacts.clear_before_unbordered;
                 [apply marker_unbordered | assumption] ].
    cbn [nth append]. now rewrite Hv. }
  destruct (deploy_success c w s out err value B R X NE) as [tr E].
  cbv zeta in *. rewrite E. split; reflexivity.
Qed.

Lemma marker_twice_on_a_line_witness :
  fst (deploy skale_twice Skale blank)
  = Ok (Some (deployed Skale "0xAAA" 1700000000)).
Proof.
  apply (marker_twice_on_a_line Skale skale_twice blank
           ("Contract Address: 0xAAA" ++ PyStr.chr 12288
            ++ "Contract Address: 0xBBB") EmptyString
           [] EmptyString (" 0xAAA" ++ PyStr.chr 12288) " 0xBBB" [] "0xAAA");
    solve [reflexivity | discriminate].
Defined.

(** A failed build.  When [anchor build] does not run to exit status
    0 (the executable is missing, the call raises, or the status is
    not 0), [deploy_solana] returns [None] with the ledger as it was,
    and [anchor build] is the only command it has run: the deployment
    script is not started. *)
Theorem failed_build_skips_deploy w s :
  built w Solana = false ->
  fst (deploy_solana w s) = Ok None /\
  deployments (snd (deploy_solana w s)) = deployments s /\
  spawned (emitted s (snd (deploy_solana w s))) = [["anchor"; "build"]].
Proof.
  unfold built. intros B. unfold_script. run_script.
  destruct (run_command w ["anchor"; "build"]) as [|m|rc o e]; run_script.
  1,2: split; [reflexivity|]; split; [reflexivity|];
       erewrite emitted_app by (cbn; norm_console; reflexivity); reflexivity.
  destruct rc; try discriminate; run_script;
    (split; [reflexivity|]; split; [reflexivity|];
     erewrite emitted_app by (cbn; norm_console; reflexivity); reflexivity).
Qed.

Lemma failed_build_skips_deploy_witness :
  fst (deploy_solana build_fails blank) = Ok None /\
  deployments (snd (deploy_solana build_fails blank)) = deployments blank /\
  spawned (emitted blank (snd (deploy_solana build_fails blank)))
  = [["anchor"; "build"]].
Proof. apply (failed_build_skips_deploy build_fails blank). reflexivity. Defined.

(** An exception in the deploy invocation.  Whatever [subprocess.run]
    raises when it starts the deployment script is caught by the
    deployer: it returns [None], leaves the ledger as it was, and its
    last line is the "unexpected error" message with the exception. *)
Theorem deployer_catches_exceptions c w s e :
  built w c = true ->
  raised_by w (deploy_cmd c) = Some e ->
  fst (deploy w c s) = Ok None /\
  deployments (snd (deploy w c s)) = deployments s /\
  last (emitted s (snd (deploy w c s))) (Spawn [])
  = Print [Str "❌ Unexpected error: "; Exc e].
Proof.
  unfold built, raised_by. intros B R.
  destruct c; unfold deploy_cmd in *; unfold_script; run_script.
  - destruct (run_command w ["anchor"; "build"]) as [| |[] ? ?]; try discriminate.
    run_script.
    destruct (run_command w solana_deploy_cmd) as [|m|rc o e']; try discriminate;
      injection R as <-; run_script;
      (split; [reflexivity|]; split; [reflexivity|];
       erewrite emitted_app by (cbn; norm_console; reflexivity); reflexivity).
  - destruct (run_command w skale_deploy_cmd) as [|m|rc o e']; try discriminate;
      injection R as <-; run_script;
      (split; [reflexivity|]; split; [reflexivity|];
       erewrite emitted_app by (cbn; norm_console; reflexivity); reflexivity).
Qed.

Lemma deployer_catches_exceptions_witness :
  fst (deploy skale_missing Skale blank) = Ok None /\
  deployments (snd (deploy skale_missing Skale blank)) = deployments blank /\
  last (emitted blank (snd (deploy skale_missing Skale blank))) (Spawn [])
  = Print [Str "❌ Unexpected error: ";
           Exc (FileNotFoundError skale_deploy_cmd)].
Proof.
  apply (deployer_catches_exceptions Skale skale_missing blank);
    reflexivity.
Defined.

(** ** The environment check *)

(** The probes of [check_environment] run in the order Node.js,
    Python3, Anchor CLI, Hardhat, and stop at the first of Node.js and
    Python3 that is missing: after a missing Node.js nothing else is
    probed, after a missing Python3 neither Anchor nor Hardhat is. *)
Theorem probes_stop_at_first_missing w s :
  forallb (responds w) version_cmds = true ->
  spawned (emitted s (snd (check_environment w s)))
  = if found w ["node"; "--version"] then
      if found w ["python3"; "--version"] then version_cmds
      else [["node"; "--version"]; ["python3"; "--version"]]
    else [["node"; "--version"]].
Proof.
  unfold version_cmds, responds, found. cbn [forallb].
  rewrite !andb_true_iff. intros (H1 & H2 & H3 & H4 & _).
  unfold_script. script_step.
  destruct (run_command w ["node"; "--version"]); try discriminate;
    script_step;
    [erewrite emitted_app by (cbn; norm_console; reflexivity); reflexivity|].
  destruct (run_command w ["python3"; "--version"]); try discriminate;
    script_step;
    [erewrite emitted_app by (cbn; norm_console; reflexivity); reflexivity|].
  destruct (run_command w ["anchor"; "--version"]); try discriminate; script_step;
    (destruct (run_command w ["npx"; "hardhat"; "--version"]);
     try discriminate; script_step;
     destruct (String.eqb (PRIVATE_KEY w) _); script_step;
     erewrite emitted_app by (cbn; norm_console; reflexivity); reflexivity).
Qed.

Lemma probes_stop_at_first_missing_witness :
  spawned (emitted blank (snd (check_environment no_python blank)))
  = [["node"; "--version"]; ["python3"; "--version"]].
Proof. apply (probes_stop_at_first_missing no_python blank). reflexivity. Defined.

Lemma check_environment_no_halt_message w :
  emits (fun e => is_print halt_message e = false /\ is_probe e = true)
        (check_environment w).
Proof. unfold check_environment, probe. emits_steps; split; reflexivity. Qed.

(** An exception that escapes [check_environment] (a probe raising
    something other than [FileNotFoundError]) escapes
    [run_full_deployment] as well: the run ends with that exception,
    without the halt message, with the ledger as it was and without
    having run any command but version probes. *)
Theorem check_exception_aborts_run w s e :
  fst (check_environment w s) = Raise e ->
  let run := run_full_deployment w s in
  fst run = Raise e /\
  deployments (snd run) = deployments s /\
  forallb is_probe (emitted s (snd run)) = true /\
  count (is_print halt_message) (emitted s (snd run)) = 0.
Proof.
  intros C. cbv zeta. unfold run_full_deployment. rewrite run_unfold. cbv zeta.
  set (s1 := snd (print start_banner s)).
  rewrite (check_environment_fst w s s1) in C.
  destruct (check_environment_no_halt_message w s1) as (tr & n & E & F).
  destruct (check_environment w s1) as [r s2]. cbn [fst snd] in C, E. subst r s2.
  cbn [fst snd advanced deployments s1 print printf emit].
  rewrite (emitted_app s _ ([Print [Str start_banner]] ++ tr))
    by (subst s1; cbn; now rewrite <- !app_assoc).
  split; [reflexivity|]. split; [reflexivity|].
  rewrite Forall_forall in F. split.
  - cbn [app forallb is_probe andb]. apply forallb_forall. intros x Hx.
    now apply F.
  - unfold count. cbn [app filter].
    change (is_print halt_message (Print [Str start_banner])) with false.
    cbv iota. replace (filter (is_print halt_message) tr) with (@nil event);
      [reflexivity|].
    symmetry. clear -F. induction tr as [|x tr IH]; [reflexivity|].
    cbn [filter]. destruct (F x (or_introl eq_refl)) as [-> _].
    apply IH. intros y Hy. apply F. now right.
Qed.

Lemma check_exception_aborts_run_witness :
  fst (run_full_deployment node_denied (fresh node_denied))
  = Raise (OtherException "[Errno 13] Permission denied: 'node'") /\
  deployments (snd (run_full_deployment node_denied (fresh node_denied)))
  = deployments (fresh node_denied).
Proof.
  destruct (check_exception_aborts_run node_denied (fresh node_denied)
              (OtherException "[Errno 13] Permission denied: 'node'") eq_refl)
    as (H1 & H2 & _).
  exact (conj H1 H2).
Defined.

(** ** The run as a whole *)

Lemma deploy_starts c w s :
  exists r tr n,
    deploy w c s
    = (Ok r, {| chains := chains s;
                deployments := deployments s
                               ++ match r with Some d => [d] | None => [] end;
                console := console s ++ tr;
                clock_reads := n + clock_reads s |}) /\
    In (Spawn (entry_cmd c)) tr.
Proof.
  destruct c; unfold entry_cmd; unfold_script; run_script.
  - destruct (run_command w ["anchor"; "build"]) as [|m|rc o e]; run_script.
    1,2: exists None; eexists _, 0; rewrite app_nil_r; norm_console;
         split; [reflexivity|find_in].
    destruct (rc =? 0)%Z; run_script.
    2: exists None; eexists _, 0; rewrite app_nil_r; norm_console;
       split; [reflexivity|find_in].
    destruct (run_command w solana_deploy_cmd) as [|m|rc2 o2 e2]; run_script.
    1,2: exists None; eexists _, 0; rewrite app_nil_r; norm_console;
         split; [reflexivity|find_in].
    destruct (rc2 =? 0)%Z; run_script.
    2: exists None; eexists _, 0; rewrite app_nil_r; norm_console;
       split; [reflexivity|find_in].
    destruct (extract _ _) as [[|a v]|]; run_script.
    1,3: exists None; eexists _, 0; rewrite app_nil_r; norm_console;
         split; [reflexivity|find_in].
    eexists (Some _), _, 1; norm_console; split; [reflexivity|find_in].
  - destruct (run_command w skale_deploy_cmd) as [|m|rc2 o2 e2]; run_script.
    1,2: exists None; eexists _, 0; rewrite app_nil_r; norm_console;
         split; [reflexivity|find_in].
    destruct (rc2 =? 0)%Z; run_script.
    2: exists None; eexists _, 0; rewrite app_nil_r; norm_console;
       split; [reflexivity|find_in].
    destruct (extract _ _) as [[|a v]|]; run_script.
    1,3: exists None; eexists _, 0; rewrite app_nil_r; norm_console;
         split; [reflexivity|find_in].
    eexists (Some _), _, 1; norm_console; split; [reflexivity|find_in].
Qed.

(** Neither chain waits for the other.  In every run that passes the
    environment check both deployers are started, whatever becomes of
    either: the Anchor build and the SKALE deployment script are both
    run. *)
Theorem both_chains_attempted w s :
  fst (check_environment w s) = Ok true ->
  let out := emitted s (snd (run_full_deployment w s)) in
  In (Spawn ["anchor"; "build"]) out /\ In (Spawn skale_deploy_cmd) out.
Proof.
  intros C. cbv zeta. unfold run_full_deployment. rewrite run_unfold. cbv zeta.
  set (s1 := snd (print start_banner s)).
  rewrite (check_environment_fst w s s1) in C.
  destruct (emits_check_environment w s1) as (tr0 & n0 & E0 & _).
  destruct (check_environment w s1) as [r s2]. cbn [fst snd] in C, E0. subst r s2.
  destruct (deploy_starts Solana w (advanced tr0 n0 s1))
    as (r1 & tr1 & n1 & E1 & I1).
  cbn [deploy] in E1. rewrite E1. clear E1.
  match goal with |- context [deploy_skale w ?st] =>
    destruct (deploy_starts Skale w st) as (r2 & tr2 & n2 & E2 & I2) end.
  cbn [deploy] in E2. rewrite E2. clear E2.
  match goal with |- context [settle w ?sy r1 r2 ?st] =>
    destruct (bystander_settle w r1 r2 st) as (tr3 & n3 & -> & _) end.
  rewrite (emitted_app s _ ([Print [Str start_banner]] ++ tr0 ++ tr1 ++ tr2 ++ tr3))
    by (subst s1; cbn; now rewrite <- !app_assoc).
  unfold entry_cmd in I1, I2. rewrite !in_app_iff. tauto.
Qed.

Lemma both_chains_attempted_witness :
  In (Spawn skale_deploy_cmd)
    (emitted (fresh solana_fails)
       (snd (run_full_deployment solana_fails (fresh solana_fails)))) /\
  length (deployments
            (snd (run_full_deployment solana_fails (fresh solana_fails)))) = 1.
Proof.
  destruct (both_chains_attempted solana_fails (fresh solana_fails) eq_refl)
    as (_ & H).
  split; [exact H|]. vm_compute. reflexivity.
Defined.

(** No run of a fresh deployer ends with an exception once the
    environment probes answer: failures of the deployers are printed
    and the run returns normally, with or without a report. *)
Theorem run_completes w s id :
  chains s = configured_chains w id ->
  deployments s = [] ->
  forallb (responds w) version_cmds = true ->
  fst (run_full_deployment w s) = Ok tt.
Proof.
  intros Hch Hds R.
  pose proof (check_environment_result w s R) as C.
  destruct (found w ["node"; "--version"] && found w ["python3"; "--version"]
            && key_configured w).
  - unfold run_full_deployment.
    destruct (run_reaches_settle (sync_cross_chain w) w s C)
      as (tr & n & r1 & r2 & _ & O1 & O2 & ->).
    rewrite Hds. cbn [app].
    set (st := {| chains := chains s; deployments := successes r1 r2;
                  console := console s ++ tr;
                  clock_reads := n + clock_reads s |}).
    destruct O1 as [-> | (v1 & t1 & _ & ->)], O2 as [-> | (v2 & t2 & _ & ->)].
    + reflexivity.
    + destruct (settle_single w (sync_cross_chain w) Skale v2 t2 id st Hch eq_refl)
        as (trr & E & _).
      cbv zeta in E. now rewrite E.
    + destruct (settle_single w (sync_cross_chain w) Solana v1 t1 id st Hch eq_refl)
        as (trr & E & _).
      cbv zeta in E. now rewrite E.
    + destruct (settle_both w v1 t1 v2 t2 id st Hch eq_refl)
        as (trs & trr & E & _).
      now rewrite E.
  - unfold run_full_deployment. rewrite run_unfold. cbv zeta.
    set (s1 := snd (print start_banner s)).
    rewrite (check_environment_fst w s s1) in C.
    destruct (check_environment w s1) as [r s2]. cbn [fst] in C. subst r.
    reflexivity.
Qed.

Lemma run_completes_witness :
  fst (run_full_deployment skale_missing (fresh skale_missing)) = Ok tt.
Proof.
  apply (run_completes skale_missing (fresh skale_missing) 2046399126);
    reflexivity.
Defined.

Lemma count_is_print_In msg tr :
  0 < count (is_print msg) tr -> In (Print [Str msg]) tr.
Proof.
  unfold count. induction tr as [|e tr IH]; cbn [filter length]; [lia|].
  destruct (is_print msg e) eqn:E.
  - intros _. left. destruct e as [[|[] [|]]|]; try discriminate.
    cbn in E. apply String.eqb_eq in E. now subst.
  - intros H. right. auto.
Qed.

Lemma shown_app l tr1 tr2 : shown l tr2 -> shown l (tr1 ++ tr2).
Proof.
  unfold shown. rewrite !Forall_forall. intros H e He.
  apply in_or_app. right. auto.
Qed.

Lemma sync_cross_chain_completes w a b s :
  exists trs,
    sync_cross_chain w a b s = (Ok true, advanced trs 1 s) /\
    In (Print [Str "✅ Cross-chain synchronization complete"]) trs.
Proof.
  unfold_script. cbn -[PyStr.nl make_sync_data]. eexists. unfold advanced.
  norm_console. split; [reflexivity|find_in].
Qed.

(** Two successes are reported as recorded.  In a run of a fresh
    deployer that passes the environment check and ends with two
    results in the ledger, the run completes, the ledger holds the
    Solana result followed by the SKALE result, the bridge step has
    printed that the synchronisation is complete, and the report shows
    the details of both results as recorded and the status
    "Synchronized". *)
Theorem two_successes_are_reported w s id :
  chains s = configured_chains w id ->
  deployments s = [] ->
  fst (check_environment w s) = Ok true ->
  length (deployments (snd (run_full_deployment w s))) = 2 ->
  let run := run_full_deployment w s in
  let out := emitted s (snd run) in
  fst run = Ok tt /\
  exists v1 t1 v2 t2,
    deployments (snd run) = [deployed Solana v1 t1; deployed Skale v2 t2] /\
    In (Print [Str "✅ Cross-chain synchronization complete"]) out /\
    In (Print [Str report_banner]) out /\
    shown (entry_lines 1 (deployed Solana v1 t1) "SOL") out /\
    shown (entry_lines 2 (deployed Skale v2 t2) "sFUEL") out /\
    In (Print [Str synchronized_status]) out.
Proof.
  intros Hch Hds HC HL. cbv zeta. unfold run_full_deployment in *.
  destruct (run_reaches_settle (sync_cross_chain w) w s HC)
    as (tr & n & r1 & r2 & Q & O1 & O2 & E).
  rewrite E in HL |- *. clear E. rewrite Hds in HL |- *. cbn [app] in HL |- *.
  set (st := {| chains := chains s; deployments := successes r1 r2;
                console := console s ++ tr; clock_reads := n + clock_reads s |})
    in HL |- *.
  destruct (bystander_settle w r1 r2 st) as (tr' & n' & E' & _).
  rewrite E' in HL. cbn [advanced deployments st] in HL. clear tr' n' E'.
  destruct O1 as [-> | (v1 & t1 & _ & ->)], O2 as [-> | (v2 & t2 & _ & ->)];
    try discriminate HL.
  clear HL.
  assert (EX : exists trs trr,
             settle w (sync_cross_chain w) (Some (deployed Solana v1 t1))
               (Some (deployed Skale v2 t2)) st
             = (Ok tt, advanced (trs ++ trr) 1 st) /\
             In (Print [Str "✅ Cross-chain synchronization complete"]) trs /\
             count (is_print report_banner) trr = 1 /\
             count (is_print synchronized_status) trr = 1 /\
             shown (entry_lines 1 (deployed Solana v1 t1) "SOL") trr /\
             shown (entry_lines 2 (deployed Skale v2 t2) "sFUEL") trr).
  { cbn [settle]. unfold bind.
    destruct (sync_cross_chain_completes w (deployed Solana v1 t1)
                (deployed Skale v2 t2) st) as (trs & -> & IS).
    destruct (report_two w v1 t1 v2 t2 id (advanced trs 1 st) Hch eq_refl)
      as (trr & -> & R1 & _ & _ & _ & R5 & _ & R7 & R8).
    exists trs, trr. split; [|auto].
    unfold logged, advanced; cbn. now rewrite <- app_assoc. }
  destruct EX as (trs & trr & -> & IS & R1 & R5 & R7 & R8).
  cbn [fst snd advanced deployments successes app st].
  rewrite (emitted_app s _ (tr ++ trs ++ trr)) by console_eq.
  split; [reflexivity|]. exists v1, t1, v2, t2.
  split; [reflexivity|].
  split; [|split; [|split; [|split]]].
  - apply in_or_app. right. apply in_or_app. now left.
  - apply in_or_app. right. apply in_or_app. right.
    apply count_is_print_In. lia.
  - now do 2 apply shown_app.
  - now do 2 apply shown_app.
  - apply in_or_app. right. apply in_or_app. right.
    apply count_is_print_In. lia.
Qed.

Lemma two_successes_are_reported_witness :
  fst (run_full_deployment both_succeed (fresh both_succeed)) = Ok tt /\
  In (Print [Str synchronized_status])
    (emitted (fresh both_succeed)
       (snd (run_full_deployment both_succeed (fresh both_succeed)))).
Proof.
  destruct (two_successes_are_reported both_succeed (fresh both_succeed)
              2046399126 eq_refl eq_refl eq_refl
              ltac:(vm_compute; reflexivity))
    as (H1 & v1 & t1 & v2 & t2 & _ & _ & _ & _ & _ & H5).
  split; [exact H1|exact H5].
Defined.

Lemma run_ledger w s :
  exists r1 r2,
    outcome_of Solana r1 /\ outcome_of Skale r2 /\
    deployments (snd (run_full_deployment w s))
    = (deployments s ++ successes r1 r2)%list.
Proof.
  destruct (fst (check_environment w s)) as [[]|e] eqn:C.
  - unfold run_full_deployment.
    destruct (run_reaches_settle (sync_cross_chain w) w s C)
      as (tr & n & r1 & r2 & _ & O1 & O2 & ->).
    exists r1, r2. split; [assumption|]. split; [assumption|].
    match goal with |- context [settle w ?sy r1 r2 ?st] =>
      destruct (bystander_settle w r1 r2 st) as (tr3 & n3 & -> & _) end.
    reflexivity.
  - exists None, None. split; [now left|]. split; [now left|].
    unfold run_full_deployment. rewrite run_unfold. cbv zeta.
    set (s1 := snd (print start_banner s)).
    rewrite (check_environment_fst w s s1) in C.
    destruct (emits_check_environment w s1) as (tr0 & n0 & E0 & _).
    destruct (check_environment w s1) as [r s2]. cbn [fst snd] in C, E0.
    subst r s2. cbn. now rewrite app_nil_r.
  - exists None, None. split; [now left|]. split; [now left|].
    unfold run_full_deployment. rewrite run_unfold. cbv zeta.
    set (s1 := snd (print start_banner s)).
    rewrite (check_environment_fst w s s1) in C.
    destruct (emits_check_environment w s1) as (tr0 & n0 & E0 & _).
    destruct (check_environment w s1) as [r s2]. cbn [fst snd] in C, E0.
    subst r s2. cbn. now rewrite app_nil_r.
Qed.

Lemma well_formed_deployed c v t : v <> EmptyString -> well_formed (deployed c v t).
Proof.
  intros NE. unfold well_formed. cbn. repeat split; try assumption.
  destruct c; [left|right]; split; reflexivity.
Qed.

(** Every result a run adds to the ledger is well formed: its
    identifier is not empty and serves as contract address and program
    id, its transaction hash is the placeholder, its gas is ["0"] and
    its chain and fee are those of Solana or of SKALE.  A ledger of
    well-formed results stays one. *)
Theorem run_keeps_results_well_formed w s :
  Forall well_formed (deployments s) ->
  Forall well_formed (deployments (snd (run_full_deployment w s))).
Proof.
  intros H. destruct (run_ledger w s) as (r1 & r2 & O1 & O2 & ->).
  apply Forall_app. split; [assumption|]. unfold successes.
  apply Forall_app. split.
  - destruct O1 as [-> | (v & t & NE & ->)]; constructor;
      [now apply well_formed_deployed | constructor].
  - destruct O2 as [-> | (v & t & NE & ->)]; constructor;
      [now apply well_formed_deployed | constructor].
Qed.

Lemma run_keeps_results_well_formed_witness :
  Forall well_formed
    (deployments (snd (run_full_deployment both_succeed (fresh both_succeed)))) /\
  length (deployments
            (snd (run_full_deployment both_succeed (fresh both_succeed)))) = 2.
Proof.
  split.
  - apply (run_keeps_results_well_formed both_succeed (fresh both_succeed)).
    constructor.
  - vm_compute. reflexivity.
Defined.

Lemma deploy_repeats c w s s' :
  match fst (deploy w c s) with
  | Ok (Some d) =>
      fst (deploy w c s')
      = Ok (Some (deployed c (contract_address d)
                    (time_time w (clock_reads s'))))
  | Ok None => fst (deploy w c s') = Ok None
  | Raise _ => False
  end.
Proof.
  destruct c; unfold_script; run_script.
  - destruct (run_command w ["anchor"; "build"]) as [|m|rc o e]; run_script;
      try reflexivity.
    destruct (rc =? 0)%Z; run_script; try reflexivity.
    destruct (run_command w solana_deploy_cmd) as [|m|rc2 o2 e2]; run_script;
      try reflexivity.
    destruct (rc2 =? 0)%Z; run_script; try reflexivity.
    destruct (extract _ _) as [[|a v]|]; run_script; reflexivity.
  - destruct (run_command w skale_deploy_cmd) as [|m|rc2 o2 e2]; run_script;
      try reflexivity.
    destruct (rc2 =? 0)%Z; run_script; try reflexivity.
    destruct (extract _ _) as [[|a v]|]; run_script; reflexivity.
Qed.

(** The ledger has no guard against a second result for a chain.  A
    deployer that succeeded succeeds again when called again in the
    same world, and appends a second result for the same chain with
    the same address. *)
Theorem second_deploy_is_recorded_again c w s d :
  fst (deploy w c s) = Ok (Some d) ->
  let twice := deploy w c ;; deploy w c in
  exists d',
    fst (twice s) = Ok (Some d') /\
    deployments (snd (twice s)) = (deployments s ++ [d; d'])%list /\
    chain d' = chain d /\
    contract_address d' = contract_address d.
Proof.
  intros H. cbv zeta. unfold bind.
  pose proof (deploy_ledger c w s) as L. rewrite H in L. destruct L as [L Ch].
  destruct (deploy w c s) as [r s1] eqn:E. cbn [fst snd] in H, L. subst r.
  pose proof (deploy_repeats c w s s1) as R. rewrite E in R. cbn [fst] in R.
  pose proof (deploy_ledger c w s1) as L1. rewrite R in L1.
  destruct L1 as [L1 Ch1].
  eexists. split; [exact R|]. split.
  - rewrite L1, L, <- app_assoc. reflexivity.
  - split; [now rewrite Ch|reflexivity].
Qed.

Lemma second_deploy_is_recorded_again_witness :
  map chain
    (deployments
       (snd ((deploy both_succeed Skale ;; deploy both_succeed Skale) blank)))
  = ["skale"; "skale"].
Proof.
  destruct (second_deploy_is_recorded_again Skale both_succeed blank
              (deployed Skale "0xDEF456" 1700000000) eq_refl)
    as (d' & _ & L & Ch & _).
  cbv zeta in L. rewrite L. cbn [map app deployments blank].
  now rewrite Ch.
Defined.

Lemma sync_cross_chain_record w a b s :
  exists trs,
    sync_cross_chain w a b s = (Ok true, advanced trs 1 s) /\
    In (Print [Json (make_sync_data a b (time_time w (clock_reads s)))]) trs.
Proof.
  unfold_script. cbn -[PyStr.nl make_sync_data]. eexists. unfold advanced.
  norm_console. split; [reflexivity|find_in].
Qed.

Lemma check_environment_clock w s :
  clock_reads (snd (check_environment w s)) = clock_reads s.
Proof.
  unfold_script. script_step.
  destruct (run_command w ["node"; "--version"]); script_step; try reflexivity.
  destruct (run_command w ["python3"; "--version"]); script_step; try reflexivity.
  destruct (run_command w ["anchor"; "--version"]); script_step; try reflexivity;
    (destruct (run_command w ["npx"; "hardhat"; "--version"]); script_step; try reflexivity;
     destruct (String.eqb _ _); reflexivity).
Qed.

(** Timestamps follow the clock.  In a run from an empty ledger in
    which both deployments succeed, the first result of the ledger is
    the Solana result, stamped with the first clock reading of the
    run, the second is the SKALE result, stamped with the next
    reading, and the [sync_data] document printed names the two and
    carries the reading after that.  With a clock that does not run
    backwards the three timestamps are in that order. *)
Theorem timestamps_follow_the_clock w s :
  deployments s = [] ->
  fst (check_environment w s) = Ok true ->
  length (deployments (snd (run_full_deployment w s))) = 2 ->
  let final := snd (run_full_deployment w s) in
  let n := clock_reads s in
  exists v1 v2,
    let d1 := deployed Solana v1 (time_time w n) in
    let d2 := deployed Skale v2 (time_time w (S n)) in
    let r := make_sync_data d1 d2 (time_time w (S (S n))) in
    deployments final = [d1; d2] /\
    In (Print [Json r]) (emitted s final) /\
    ((forall k, (time_time w k <= time_time w (S k))%Z) ->
     (timestamp d1 <= timestamp d2 <= sync_timestamp r)%Z).
Proof.
  intros Hds C HL. cbv zeta.
  unfold run_full_deployment in *. rewrite run_unfold in HL |- *. cbv zeta in *.
  set (s1 := snd (print start_banner s)) in *.
  rewrite (check_environment_fst w s s1) in C.
  pose proof (check_environment_clock w s1) as CK.
  destruct (emits_check_environment w s1) as (tr0 & n0 & E0 & _).
  destruct (check_environment w s1) as [r s2]. cbn [fst snd] in C, E0, CK.
  subst r s2.
  assert (n0 = 0) as -> by (cbn in CK; lia). clear CK.
  destruct (deploy_cases Solana w (advanced tr0 0 s1))
    as (tr1 & [E1 | (v1 & _ & E1)] & _);
    cbv zeta in E1; cbn [deploy] in E1; rewrite E1 in HL |- *; clear E1.
  all: match goal with |- context [deploy_skale ?w0 ?st] =>
         destruct (deploy_cases Skale w0 st) as (tr2 & [E2 | (v2 & _ & E2)] & _);
         cbv zeta in E2; cbn [deploy] in E2; rewrite E2 in HL |- *; clear E2
       end.
  1-3: exfalso;
       match type of HL with context [settle ?w0 ?sy ?r1 ?r2 ?st] =>
         destruct (bystander_settle w0 r1 r2 st) as (tr3 & n3 & E3 & _);
         rewrite E3 in HL
       end;
       cbn in HL; rewrite Hds in HL; discriminate HL.
  clear HL.
  match goal with |- context [settle w ?sy (Some ?a) (Some ?b) ?st] =>
    assert (EF : exists trs trr nr res,
               settle w sy (Some a) (Some b) st
               = (res, advanced (trs ++ trr) nr st) /\
               In (Print [Json (make_sync_data a b
                                  (time_time w (clock_reads st)))]) trs)
  end.
  { cbn [settle]. unfold bind.
    match goal with |- context [sync_cross_chain w ?a ?b ?st] =>
      destruct (sync_cross_chain_record w a b st) as (trs & -> & IS);
      destruct (bystander_report_and_links w (advanced trs 1 st))
        as (trr & nr & E & _);
      destruct (report_and_links w (advanced trs 1 st)) as [res st']
    end.
    cbn [snd] in E. subst st'. exists trs, trr, (nr + 1), res.
    split; [|exact IS]. unfold advanced; cbn.
    rewrite <- (app_assoc _ trs trr).
    match goal with |- context [nr + 1 + ?k] =>
      replace (nr + 1 + k) with (nr + S k) by lia end.
    reflexivity. }
  destruct EF as (trs & trr & nr & res & -> & IS).
  cbn [advanced logged recorded deployments clock_reads s1 print printf emit
       snd Nat.add] in *.
  rewrite Hds. cbn [app].
  exists v1, v2. split; [reflexivity|]. split.
  - erewrite emitted_app by (cbn; norm_console; reflexivity).
    cbn [In]. right. rewrite !in_app_iff. do 3 right. left. exact IS.
  - intros Mono. cbn [timestamp deployed make_sync_data sync_timestamp].
    split; apply Mono.
Qed.

Lemma timestamps_follow_the_clock_witness :
  map timestamp
    (deployments (snd (run_full_deployment both_succeed (fresh both_succeed))))
  = [time_time both_succeed 0; time_time both_succeed 1].
Proof.
  destruct (timestamps_follow_the_clock both_succeed (fresh both_succeed)
              eq_refl eq_refl ltac:(vm_compute; reflexivity))
    as (v1 & v2 & L & _ & _).
  cbv zeta in L. rewrite L. reflexivity.
Defined.

(** ** The report *)


Lemma relayers_unknown (s : state) before d after :
  forallb (known (chains s)) before = true ->
  known (chains s) d = false ->
  mapM (fun d => c <- chain_config (chain d) ;; ret (relayer_type c))
    (before ++ d :: after) s
  = (Raise (KeyError (chain d)), s).
Proof.
  intros HB K. induction before as [|d0 ds IH]; cbn [forallb mapM app] in *.
  - unfold known in K. unfold bind at 1 2. unfold chain_config at 1.
    destruct (assoc (chain d) (chains s)); [discriminate|reflexivity].
  - apply andb_true_iff in HB. destruct HB as [K0 HB]. unfold known in K0.
    unfold bind at 1 2. unfold chain_config at 1.
    destruct (assoc (chain d0) (chains s)) as [c|]; [|discriminate].
    cbn [ret]. unfold bind at 1. now rewrite (IH HB).
Qed.


Lemma sum_fees_priced ds :
  forall acc, forallb priced ds = true -> exists x, sum_fees acc ds = Ok x.
Proof.
  induction ds as [|d ds IH]; intros acc H; cbn [sum_fees forallb] in *.
  - now exists acc.
  - apply andb_true_iff in H. destruct H as [P H]. unfold priced in P.
    destruct (PyStr.float (relayer_fee d)); [auto|discriminate].
Qed.



(** A result for a chain that is not configured.  When the fees are
    numbers and [d] is the first result of the ledger whose chain is
    not a key of [self.chains], [generate_report] raises [KeyError]
    for that chain when it collects the relayer types, after the
    banner, the rule, the two counting lines and the line [.2f]: no
    entry and no status line is printed, and the ledger is as it
    was. *)
Theorem report_raises_on_unknown_chain w s before d after :
  forallb priced (deployments s) = true ->
  deployments s = (before ++ d :: after)%list ->
  forallb (known (chains s)) before = true ->
  known (chains s) d = false ->
  let r := generate_report w s in
  fst r = Raise (KeyError (chain d)) /\
  deployments (snd r) = deployments s /\
  emitted s (snd r)
  = [ Print [Str report_banner];
      Print [Str (PyStr.times "=" 50)];
      Print [Str "Total Deployments: ";
             Int (Z.of_nat (length (deployments s)))];
      Print [Str "Chains Deployed: "; JoinSet ", " (map chain (deployments s))];
      Print [Str ".2f"] ].
Proof.
  intros P L HB K. cbv zeta.
  destruct s as [cs ds k n]. cbn [deployments chains] in *.
  destruct (sum_fees_priced ds (PyStr.Finite 0) P) as [x T].
  change (total_savings ds = Ok x) in T.
  unfold generate_report.
  unfold bind, print, printf, emit, get_deployments, lift.
  cbn -[PyStr.nl PyStr.times ENABLE_REBATES mapM report_details total_savings emitted Nat.leb].
  rewrite T.
  match goal with |- context [mapM ?f ds ?st] =>
    pose proof (relayers_unknown st before d after HB K) as E;
    rewrite <- L in E;
    change (mapM f ds st = (Raise (KeyError (chain d)), st)) in E;
    rewrite E; clear E
  end.
  cbn -[PyStr.nl PyStr.times emitted].
  erewrite emitted_app by (cbn; norm_console; reflexivity).
  repeat split.
Qed.

Lemma report_raises_on_unknown_chain_witness :
  fst (generate_report both_succeed
         (with_ledger [deployed Solana "ABC123" 1; stray]))
  = Raise (KeyError "polygon").
Proof.
  apply (report_raises_on_unknown_chain both_succeed
           (with_ledger [deployed Solana "ABC123" 1; stray])
           [deployed Solana "ABC123" 1] stray []);
    solve [reflexivity | vm_compute; reflexivity].
Defined.

Lemma sum_fees_unpriced acc before d after :
  forallb priced before = true ->
  priced d = false ->
  sum_fees acc (before ++ d :: after) = Raise (ValueError (relayer_fee d)).
Proof.
  revert acc. induction before as [|d0 ds IH]; intros acc HB K;
    cbn [app sum_fees forallb] in *; unfold priced in *.
  - destruct (PyStr.float (relayer_fee d)); [discriminate|reflexivity].
  - apply andb_true_iff in HB. destruct HB as [K0 HB].
    destruct (PyStr.float (relayer_fee d0)); [|discriminate]. now apply IH.
Qed.

(** A fee that is not a number.  When [d] is the first result of the
    ledger whose [relayer_fee] [float] does not accept,
    [generate_report] raises [ValueError] for that fee right after
    the banner and the rule: the number of deployments is not
    printed, nor anything after it, and the ledger is as it was. *)
Theorem report_raises_on_unpriced_fee w s before d after :
  deployments s = (before ++ d :: after)%list ->
  forallb priced before = true ->
  PyStr.well_encoded (relayer_fee d) = true ->
  priced d = false ->
  let r := generate_report w s in
  fst r = Raise (ValueError (relayer_fee d)) /\
  deployments (snd r) = deployments s /\
  emitted s (snd r)
  = [ Print [Str report_banner]; Print [Str (PyStr.times "=" 50)] ].
Proof.
  intros L HB _ K. cbv zeta.
  destruct s as [cs ds k n]. cbn [deployments chains] in *.
  unfold generate_report.
  unfold bind, print, printf, emit, get_deployments, lift.
  cbn -[PyStr.nl PyStr.times ENABLE_REBATES mapM report_details total_savings emitted Nat.leb].
  unfold total_savings.
  pose proof (sum_fees_unpriced (PyStr.Finite 0) before d after HB K) as E.
  rewrite <- L in E. rewrite E. clear E.
  cbn -[PyStr.nl PyStr.times emitted].
  erewrite emitted_app by (cbn; norm_console; reflexivity).
  repeat split.
Qed.

Lemma report_raises_on_unpriced_fee_witness :
  fst (generate_report both_succeed
         (with_ledger [deployed Solana "ABC123" 1; unpriced]))
  = Raise (ValueError "n/a").
Proof.
  apply (report_raises_on_unpriced_fee both_succeed
           (with_ledger [deployed Solana "ABC123" 1; unpriced])
           [deployed Solana "ABC123" 1] unpriced []);
    solve [reflexivity | vm_compute; reflexivity].
Defined.

(** ** The bridge step *)

(** The bridge step is a simulation.  [sync_cross_chain] runs no
    command and leaves the ledger and the chains as they are; it
    reads the clock once and prints one [sync_data] document, which
    names ["solana"] as source with the address of its first argument
    and ["skale"] as target with the address of its second, whatever
    the chains of the two results. *)
Theorem sync_cross_chain_is_simulated w a b s :
  let final := snd (sync_cross_chain w a b s) in
  chains final = chains s /\
  deployments final = deployments s /\
  clock_reads final = S (clock_reads s) /\
  spawned (emitted s final) = [] /\
  printed_records (emitted s final)
  = [ {| source_chain := "solana";
         target_chain := "skale";
         source_address := contract_address a;
         target_address := contract_address b;
         sacred_state :=
           {| matrix_level := 1;
              earnings_pool := 0;
              allowlist := [contract_address a; contract_address b] |};
         sync_timestamp := time_time w (clock_reads s) |} ].
Proof.
  cbv zeta. unfold_script. cbn -[PyStr.nl].
  erewrite emitted_app by (cbn; norm_console; reflexivity).
  repeat split.
Qed.
